(** * ctparse.corpus: dataset builder and corpus validator

    A shallow embedding of [src/ctparse/corpus.py].

    - Python generators ([make_partial_rule_dataset], [_progress_bar]) are
      modelled by the finite trace of what they do, in order: a value
      yielded ([Emit]) or a progress-bar action ([Show]).
    - The validator ([_run_corpus_one_test], [run_corpus]) mutates local
      variables inside nested loops, logs and raises; it is modelled by
      explicit state passing in a small logging/exception monad [M].
    - The loader ([load_timeparse_corpus]) returns its entries or the
      exception raised; opening and decoding the file is a parameter.
    - Everything imported from outside the module (the candidate generator,
      [datetime.strptime], the value types and their methods, the scorer) is
      a parameter of [Section Corpus]. *)

From Stdlib Require Import List String Ascii Bool Arith ZArith QArith Lia.
Import ListNotations.
Open Scope string_scope.
Open Scope nat_scope.
Open Scope list_scope.

Set Implicit Arguments.

(** ** Python values used by the module *)

(** The exceptions the module can raise, directly or through a builtin. *)
Inductive exn : Type :=
| ValueError (msg : string)
| AssertionError
| ZeroDivisionError
| Exception (msg : string).

(** One step of a running generator. *)
Inductive Step (D T : Type) : Type :=
| Emit (v : T)
| Show (d : D).
Arguments Emit {D T} v.
Arguments Show {D T} d.

(** What the consumer of a generator receives. *)
Fixpoint yields {D T : Type} (tr : list (Step D T)) : list T :=
  match tr with
  | [] => []
  | Emit v :: tr' => v :: yields tr'
  | Show _ :: tr' => yields tr'
  end.

(** What the terminal shows while the generator runs. *)
Fixpoint shown {D T : Type} (tr : list (Step D T)) : list D :=
  match tr with
  | [] => []
  | Emit _ :: tr' => shown tr'
  | Show d :: tr' => d :: shown tr'
  end.

(** The two things [tqdm] is asked to do in this module. *)
Inductive Display : Type :=
| TqdmNew (total : nat)
| SetDescription (s : string).

(** [range(1, n + 1)] *)
Definition range1 (n : nat) : list nat := seq 1 n.

(** ["{: <70}".format(s)]: left-aligned, padded with spaces to [width]. *)
Definition ljust (width : nat) (s : string) : string :=
  (s ++ string_of_list_ascii (repeat " "%char (width - String.length s)))%string.

(** [s[start:-1]] *)
Definition slice_to_last (start : nat) (s : string) : string :=
  let l := list_ascii_of_string s in
  string_of_list_ascii (skipn start (firstn (List.length l - 1) l)).

(** [int(b)] *)
Definition int_of_bool (b : bool) : nat := if b then 1 else 0.

Section Corpus.

(** *** External collaborators *)

(** [datetime] and [datetime.strptime(value, format)], which raises on a
    mismatch. *)
Variable datetime : Type.
Variable strptime : string -> string -> exn + datetime.

(** The text of the [ValueError] that the builtin [max] raises on an empty
    sequence; it is the interpreter's. *)
Variable max_empty : string.

(** Python floats, with the literal [1.0] and the comparison [>]. *)
Variable float : Type.
Variable float_1_0 : float.
Variable float_gtb : float -> float -> bool.

(** [Union[float, int]] *)
Inductive number : Type :=
| Int (z : Z)
| Float (f : float).

(** [ctparse.types]: [Artifact] with [==] and [nb_str()]; [Time],
    [Interval] and [Duration] with their [from_str] class methods, which
    may raise. *)
Variable Artifact : Type.
Variable Artifact_eq : Artifact -> Artifact -> bool.
Variable nb_str : Artifact -> string.
Variables Time Interval Duration : Type.
Variable Time_from_str : string -> exn + Time.
Variable Interval_from_str : string -> exn + Interval.
Variable Duration_from_str : string -> exn + Duration.

(** An element of [CTParse.production] and its [str()]. *)
Variable ProdItem : Type.
Variable str : ProdItem -> string.

(** [ctparse.scorer] *)
Variable Scorer : Type.
Variable DummyScorer : Scorer.

(** The fields of [CTParse] the module reads. *)
Record CTParse : Type := mkCTParse {
  resolution : Artifact;
  production : list ProdItem;
  score : float
}.

(** [ctparse_gen(text, ts, relative_match_len, timeout, max_stack_depth,
    scorer, latent_time)]: the candidates it yields, in order; a candidate
    may be [None]. *)
Variable ctparse_gen :
  string -> datetime -> float -> number -> Z -> Scorer -> bool ->
  list (option CTParse).

(** *** Data model *)

Record TimeParseEntry : Type := mkTimeParseEntry {
  text : string;
  ts : datetime;
  gold : Artifact
}.

(** A labeled row [(X, y)]. *)
Definition Row : Type := (list string * bool)%type.

(** *** [_progress_bar] *)

Definition _progress_bar {T : Type}
    (it : list T) (total : nat) (status_text : T -> string)
  : list (Step Display T) :=
  Show (TqdmNew total) ::
  flat_map (fun val => [Show (SetDescription (status_text val)); Emit val]) it.

(** *** [make_partial_rule_dataset] *)

(** The innermost loop: one sample for each applied rule. *)
Definition partial_rules (parse : CTParse) (y : bool)
  : list (Step Display Row) :=
  flat_map
    (fun i =>
       let X := map str (firstn i (production parse)) in
       [Emit (X, y)])
    (range1 (List.length (production parse))).

(** The body of [for parse in ctparse_gen(...)]. *)
Definition dataset_of_parse (entry : TimeParseEntry) (parse : option CTParse)
  : list (Step Display Row) :=
  match parse with
  | None => []
  | Some parse =>
      let y := Artifact_eq (resolution parse) (gold entry) in
      partial_rules parse y
  end.

(** The body of [for entry in entries_it]. *)
Definition dataset_of_entry
    (scorer : Scorer) (timeout : number) (max_stack_depth : Z)
    (relative_match_len : float) (entry : TimeParseEntry)
  : list (Step Display Row) :=
  flat_map (dataset_of_parse entry)
    (ctparse_gen (text entry) (ts entry) relative_match_len timeout
       max_stack_depth scorer false).

(** Iterating over a generator: its actions happen, and the body runs on
    each value it yields. *)
Definition for_gen {T R : Type}
    (it : list (Step Display T)) (body : T -> list (Step Display R))
  : list (Step Display R) :=
  flat_map
    (fun st => match st with
               | Emit v => body v
               | Show d => [Show d]
               end)
    it.

Definition make_partial_rule_dataset
    (entries : list TimeParseEntry) (scorer : Scorer) (timeout : number)
    (max_stack_depth : Z) (relative_match_len : float) (progress : bool)
  : list (Step Display Row) :=
  let entries_it :=
    if progress then
      _progress_bar entries (List.length entries)
        (fun entry => ("  " ++ ljust 70 (text entry))%string)
    else
      map Emit entries
  in
  for_gen entries_it
    (dataset_of_entry scorer timeout max_stack_depth relative_match_len).

(** *** [parse_nb_string] *)

Inductive NbValue : Type :=
| NbTime (t : Time)
| NbInterval (i : Interval)
| NbDuration (d : Duration).

(** A call that may raise, followed by a conversion of its result. *)
Definition on_ok {A B : Type} (f : A -> B) (r : exn + A) : exn + B :=
  match r with
  | inl e => inl e
  | inr a => inr (f a)
  end.

Definition parse_nb_string (gold_parse : string) : exn + NbValue :=
  if String.prefix "Time" gold_parse then
    on_ok NbTime (Time_from_str (slice_to_last 7 gold_parse))
  else if String.prefix "Interval" gold_parse then
    on_ok NbInterval (Interval_from_str (slice_to_last 11 gold_parse))
  else if String.prefix "Duration" gold_parse then
    on_ok NbDuration (Duration_from_str (slice_to_last 11 gold_parse))
  else
    inl (ValueError ("'" ++ gold_parse ++ "' has an invalid format")%string).

(** *** Logging and exceptions *)

(** The records the module hands to [logger]; each constructor is one
    format string of the source, with the arguments it is formatted
    with.  A ratio is kept as the exact quotient of the two counters. *)
Inductive LogRecord : Type :=
| WarnNeverProduced (target test : string)
    (* warning: failure: target {} never produced in {} *)
| WarnNotAlways (target : string)
    (* warning: failure: {} not always produced *)
| InfoRun (total_tests targets pos neg parses : nat)
    (* info: run {} tests on {} targets with a total of {} positive and
       {} negative parses (={}) *)
| InfoShareCorrect (share : Q)
    (* info: share of correct parses in all parses: {:.2%} *)
| InfoShareFirst (share : Q)
    (* info: share of correct parses being produced first: {:.2%} *)
| InfoShareBest (share : Q)
    (* info: share of correct parses being scored highest: {:.2%} *).

(** A computation that logs, and then returns or raises. *)
Definition M (A : Type) : Type := (list LogRecord * (exn + A))%type.

Definition ret {A : Type} (a : A) : M A := ([], inr a).
Definition raise {A : Type} (e : exn) : M A := ([], inl e).
Definition logger (r : LogRecord) : M unit := ([r], inr tt).

Definition bind {A B : Type} (m : M A) (k : A -> M B) : M B :=
  match m with
  | (l, inl e) => (l, inl e)
  | (l, inr a) => let (l', r) := k a in (l ++ l', r)
  end.

Notation "x <- m ;; k" := (bind m (fun x => k))
  (at level 100, m at next level, right associativity).
Notation "m ;;; k" := (bind m (fun _ => k))
  (at level 100, right associativity).

(** [for x in xs: s = body(s, x)] *)
Fixpoint for_each {A S : Type} (xs : list A) (body : S -> A -> M S) (s : S)
  : M S :=
  match xs with
  | [] => ret s
  | x :: xs' => s' <- body s x ;; for_each xs' body s'
  end.

(** [if c: m] *)
Definition when (c : bool) (m : M unit) : M unit :=
  if c then m else ret tt.

(** The exact quotient of two counters, the second one positive. *)
Definition ratio (a b : nat) : Q := Z.of_nat a # Pos.of_nat b.

(** [a / b] on two ints. *)
Definition truediv (a b : nat) : M Q :=
  match b with
  | 0 => raise ZeroDivisionError
  | S _ => ret (ratio a b)
  end.

(** [max(l, key=key)]: an item replaces the current maximum when its key
    is [>] the maximum's key, so the first of the greatest items wins. *)
Definition max_scan {A : Type} (key : A -> float) (x : A) (xs : list A) : A :=
  fold_left (fun m item => if float_gtb (key item) (key m) then item else m)
    xs x.

Definition py_max {A : Type} (key : A -> float) (l : list A) : M A :=
  match l with
  | [] => raise (ValueError max_empty)
  | x :: xs => ret (max_scan key x xs)
  end.

(** *** [_run_corpus_one_test] *)

(** The local variables of [_run_corpus_one_test]. *)
Record Locals : Type := mkLocals {
  all_tests_pass : bool;
  Xs : list (list string);
  ys : list bool;
  pos_parses : nat;
  neg_parses : nat;
  pos_first_parses : nat;
  pos_best_scored : nat;
  total_tests : nat;
  one_prod_passes : bool;
  first_prod : bool;
  y_score : list (float * bool)
}.

(** What [_run_corpus_one_test] returns. *)
Record OneTest : Type := mkOneTest {
  Xs_ : list (list string);
  ys_ : list bool;
  total_tests_ : nat;
  pos_parses_ : nat;
  neg_parses_ : nat;
  pos_first_parses_ : nat;
  pos_best_scored_ : nat;
  at_least_one_failed_ : bool
}.

(** [Xs.append(...); ys.append(y)] for one prefix length [i]. *)
Definition append_sample (parse : CTParse) (y : bool) (l : Locals) (i : nat)
  : Locals :=
  mkLocals (all_tests_pass l)
    (Xs l ++ [map str (firstn i (production parse))])
    (ys l ++ [y])
    (pos_parses l) (neg_parses l) (pos_first_parses l) (pos_best_scored l)
    (total_tests l) (one_prod_passes l) (first_prod l) (y_score l).

(** The body of [for parse in ctparse_gen(...)]. *)
Definition one_parse (target : string) (l : Locals) (parse : option CTParse)
  : M Locals :=
  match parse with
  | None => raise AssertionError
  | Some parse =>
      let y := String.eqb (nb_str (resolution parse)) target in
      let l :=
        fold_left (append_sample parse y)
          (range1 (List.length (production parse))) l in
      ret (mkLocals (all_tests_pass l) (Xs l) (ys l)
             (pos_parses l + int_of_bool y)
             (neg_parses l + int_of_bool (negb y))
             (pos_first_parses l + int_of_bool (y && first_prod l))
             (pos_best_scored l) (total_tests l)
             (one_prod_passes l || y)
             false
             (y_score l ++ [(score parse, y)]))
  end.

(** The body of [for test in tests]. *)
Definition one_sentence
    (target : string) (ts : datetime) (tests : list string)
    (max_stack_depth : Z) (l : Locals) (test : string)
  : M Locals :=
  let l :=
    mkLocals (all_tests_pass l) (Xs l) (ys l) (pos_parses l) (neg_parses l)
      (pos_first_parses l) (pos_best_scored l) (total_tests l)
      false true [] in
  l <- for_each
         (ctparse_gen test ts float_1_0 (Int 0) max_stack_depth
            DummyScorer false)
         (one_parse target) l ;;
  when (negb (one_prod_passes l)) (logger (WarnNeverProduced target test)) ;;;
  best <- py_max fst (y_score l) ;;
  ret (mkLocals (all_tests_pass l && one_prod_passes l) (Xs l) (ys l)
         (pos_parses l) (neg_parses l) (pos_first_parses l)
         (pos_best_scored l + int_of_bool (snd best))
         (total_tests l + List.length tests)
         (one_prod_passes l) (first_prod l) (y_score l)).

Definition _run_corpus_one_test
    (target ts_str : string) (tests : list string) (max_stack_depth : Z)
  : M OneTest :=
  match strptime ts_str "%Y-%m-%dT%H:%M" with
  | inl e => raise e
  | inr ts =>
      let l := mkLocals true [] [] 0 0 0 0 0 false true [] in
      l <- for_each tests
             (one_sentence target ts tests max_stack_depth) l ;;
      when (negb (all_tests_pass l)) (logger (WarnNotAlways target)) ;;;
      let at_least_one_failed := negb (all_tests_pass l) in
      ret (mkOneTest (Xs l) (ys l) (total_tests l) (pos_parses l)
             (neg_parses l) (pos_first_parses l) (pos_best_scored l)
             at_least_one_failed)
  end.

(** *** [run_corpus] *)

(** A corpus test case [(target, ts, tests)]. *)
Definition TestCase : Type := (string * string * list string)%type.

(** The local variables of [run_corpus]. *)
Record Totals : Type := mkTotals {
  at_least_one_failed : bool;
  t_pos_parses : nat;
  t_neg_parses : nat;
  t_pos_first_parses : nat;
  t_pos_best_scored : nat;
  t_total_tests : nat;
  t_Xs : list (list string);
  t_ys : list bool
}.

(** The body of [for target, ts, tests in tqdm(corpus)]; the default
    [max_stack_depth=0] is passed. *)
Definition one_case (t : Totals) (c : TestCase) : M Totals :=
  let '(target, ts, tests) := c in
  r <- _run_corpus_one_test target ts tests 0%Z ;;
  ret (mkTotals (at_least_one_failed t || at_least_one_failed_ r)
         (t_pos_parses t + pos_parses_ r)
         (t_neg_parses t + neg_parses_ r)
         (t_pos_first_parses t + pos_first_parses_ r)
         (t_pos_best_scored t + pos_best_scored_ r)
         (t_total_tests t + total_tests_ r)
         (t_Xs t ++ Xs_ r)
         (t_ys t ++ ys_ r)).

(** The summary and the verdict, after the loop. *)
Definition report (targets : nat) (t : Totals)
  : M (list (list string) * list bool) :=
  logger (InfoRun (t_total_tests t) targets (t_pos_parses t)
            (t_neg_parses t) (t_pos_parses t + t_neg_parses t)) ;;;
  q <- truediv (t_pos_parses t) (t_pos_parses t + t_neg_parses t) ;;
  logger (InfoShareCorrect q) ;;;
  q <- truediv (t_pos_first_parses t) (t_pos_parses t + t_neg_parses t) ;;
  logger (InfoShareFirst q) ;;;
  q <- truediv (t_pos_best_scored t) (t_total_tests t) ;;
  logger (InfoShareBest q) ;;;
  if at_least_one_failed t then
    raise (Exception "ctparse corpus has errors")
  else
    ret (t_Xs t, t_ys t).

Definition run_corpus (corpus : list TestCase)
  : M (list (list string) * list bool) :=
  t <- for_each corpus one_case (mkTotals false 0 0 0 0 0 [] []) ;;
  report (List.length corpus) t.

(** *** [load_timeparse_corpus] *)

(** What [open] and [json.load] raise (a missing file, text that is not
    JSON). *)
Variable file_exn : Type.

(** A decoded JSON object whose fields are strings, as a lookup: [e[key]]
    is [Some] of the field, or [None] when the key is missing. *)
Definition json_object : Type := string -> option string.

(** [open(fname, "r", encoding="utf-8")] followed by [json.load(fd)]: the
    decoded array of objects, or the exception raised. *)
Variable json_load_file : string -> file_exn + list json_object.

(** [Time], [Interval] and [Duration] are subclasses of [Artifact]. *)
Variable Artifact_of_Time : Time -> Artifact.
Variable Artifact_of_Interval : Interval -> Artifact.
Variable Artifact_of_Duration : Duration -> Artifact.

Definition as_Artifact (v : NbValue) : Artifact :=
  match v with
  | NbTime t => Artifact_of_Time t
  | NbInterval i => Artifact_of_Interval i
  | NbDuration d => Artifact_of_Duration d
  end.

(** What the loader can raise: the file's exception, the [KeyError] of a
    missing field, or the exception of [strptime] or [parse_nb_string]. *)
Inductive load_exn : Type :=
| FileError (e : file_exn)
| KeyError (key : string)
| Raised (e : exn).

(** One element of the list comprehension; the arguments of
    [TimeParseEntry(...)] are evaluated from left to right. *)
Definition load_entry (e : json_object) : load_exn + TimeParseEntry :=
  match e "text" with
  | None => inl (KeyError "text")
  | Some text_ =>
      match e "ref_time" with
      | None => inl (KeyError "ref_time")
      | Some ref_time =>
          match strptime ref_time "%Y-%m-%dT%H:%M:%S" with
          | inl x => inl (Raised x)
          | inr ts_ =>
              match e "gold_parse" with
              | None => inl (KeyError "gold_parse")
              | Some gold_parse =>
                  match parse_nb_string gold_parse with
                  | inl x => inl (Raised x)
                  | inr v => inr (mkTimeParseEntry text_ ts_ (as_Artifact v))
                  end
              end
          end
      end
  end.

(** [[TimeParseEntry(...) for e in entries]] *)
Fixpoint load_entries (entries : list json_object)
  : load_exn + list TimeParseEntry :=
  match entries with
  | [] => inr []
  | e :: entries' =>
      match load_entry e with
      | inl x => inl x
      | inr t =>
          match load_entries entries' with
          | inl x => inl x
          | inr ts_ => inr (t :: ts_)
          end
      end
  end.

Definition load_timeparse_corpus (fname : string)
  : load_exn + list TimeParseEntry :=
  match json_load_file fname with
  | inl x => inl (FileError x)
  | inr entries => load_entries entries
  end.

(** ** What the loops compute, in closed form

    The definitions below are not in the source: they say, without loops
    or state, what the functions above produce, and the theorems relate
    the two. *)

(** The rows of one candidate, read off the innermost loop. *)
Definition rows_of (y : bool) (parse : CTParse) : list Row :=
  map (fun i => (map str (firstn i (production parse)), y))
      (range1 (List.length (production parse))).

(** The candidates that are not [None]. *)
Fixpoint somes {A : Type} (l : list (option A)) : list A :=
  match l with
  | [] => []
  | Some a :: l' => a :: somes l'
  | None :: l' => somes l'
  end.

(** The label of a candidate: its resolution's [nb_str()] against the
    target string. *)
Definition label (target : string) (parse : CTParse) : bool :=
  String.eqb (nb_str (resolution parse)) target.

Definition prefixes (parse : CTParse) : list (list string) :=
  map (fun i => map str (firstn i (production parse)))
      (range1 (List.length (production parse))).

Definition labels (target : string) (parse : CTParse) : list bool :=
  repeat (label target parse) (List.length (production parse)).

Definition count {A : Type} (f : A -> bool) (l : list A) : nat :=
  List.length (filter f l).

(** 1 when the first candidate of the sentence is correct. *)
Definition first_correct (target : string) (ps : list CTParse) : nat :=
  match ps with
  | [] => 0
  | p :: _ => int_of_bool (label target p)
  end.

(** 1 when the candidate with the best score is correct. *)
Definition best_correct (target : string) (ps : list CTParse) : nat :=
  match map (fun p => (score p, label target p)) ps with
  | [] => 0
  | x :: xs => int_of_bool (snd (max_scan fst x xs))
  end.

(** The locals after the candidates [ps] of one sentence. *)
Definition after_parses (target : string) (ps : list CTParse) (l : Locals)
  : Locals :=
  mkLocals (all_tests_pass l)
    (Xs l ++ flat_map prefixes ps)
    (ys l ++ flat_map (labels target) ps)
    (pos_parses l + count (label target) ps)
    (neg_parses l + count (fun p => negb (label target p)) ps)
    (pos_first_parses l
     + match ps with
       | [] => 0
       | p :: _ => int_of_bool (label target p && first_prod l)
       end)
    (pos_best_scored l) (total_tests l)
    (one_prod_passes l || existsb (label target) ps)
    (match ps with [] => first_prod l | _ :: _ => false end)
    (y_score l ++ map (fun p => (score p, label target p)) ps).

(** The locals after one sentence whose candidates are [ps]. *)
Definition after_sentence
    (target : string) (tests : list string) (ps : list CTParse) (l : Locals)
  : Locals :=
  mkLocals (all_tests_pass l && existsb (label target) ps)
    (Xs l ++ flat_map prefixes ps)
    (ys l ++ flat_map (labels target) ps)
    (pos_parses l + count (label target) ps)
    (neg_parses l + count (fun p => negb (label target p)) ps)
    (pos_first_parses l + first_correct target ps)
    (pos_best_scored l + best_correct target ps)
    (total_tests l + List.length tests)
    (existsb (label target) ps)
    false
    (map (fun p => (score p, label target p)) ps).

(** The candidates the validator asks for, and those that are parses. *)
Definition candidates (ts : datetime) (max_stack_depth : Z) (test : string)
  : list (option CTParse) :=
  ctparse_gen test ts float_1_0 (Int 0) max_stack_depth DummyScorer false.

Definition parses (ts : datetime) (max_stack_depth : Z) (test : string)
  : list CTParse :=
  somes (candidates ts max_stack_depth test).

(** The generator answers a sentence: at least one candidate, none of
    them [None]. *)
Definition answers (ts : datetime) (max_stack_depth : Z) (test : string)
  : Prop :=
  candidates ts max_stack_depth test <> []
  /\ ~ In None (candidates ts max_stack_depth test).

Definition passes (target : string) (ts : datetime) (msd : Z) (test : string)
  : bool :=
  existsb (label target) (parses ts msd test).

Definition sum_over {A : Type} (f : A -> nat) (l : list A) : nat :=
  list_sum (map f l).

(** What one test case logs, when the generator answers its sentences. *)
Definition one_test_log
    (target : string) (ts : datetime) (tests : list string) (msd : Z)
  : list LogRecord :=
  flat_map
    (fun test =>
       if passes target ts msd test then []
       else [WarnNeverProduced target test])
    tests
  ++ (if forallb (passes target ts msd) tests then []
      else [WarnNotAlways target]).

(** What one test case returns, when the generator answers its
    sentences. *)
Definition one_test_result
    (target : string) (ts : datetime) (tests : list string) (msd : Z)
  : OneTest :=
  mkOneTest
    (flat_map (fun test => flat_map prefixes (parses ts msd test)) tests)
    (flat_map (fun test => flat_map (labels target) (parses ts msd test)) tests)
    (List.length tests * List.length tests)
    (sum_over (fun test => count (label target) (parses ts msd test)) tests)
    (sum_over
       (fun test => count (fun p => negb (label target p)) (parses ts msd test))
       tests)
    (sum_over (fun test => first_correct target (parses ts msd test)) tests)
    (sum_over (fun test => best_correct target (parses ts msd test)) tests)
    (negb (forallb (passes target ts msd) tests)).

(** A test case runs through: its timestamp parses and the generator
    answers each of its sentences. *)
Definition runs_through (c : TestCase) : Prop :=
  let '(target, ts_str, tests) := c in
  exists ts : datetime,
    strptime ts_str "%Y-%m-%dT%H:%M" = inr ts
    /\ forall test, In test tests -> answers ts 0%Z test.

Definition case_log (c : TestCase) : list LogRecord :=
  let '(target, ts_str, tests) := c in
  match strptime ts_str "%Y-%m-%dT%H:%M" with
  | inr ts => one_test_log target ts tests 0%Z
  | inl _ => []
  end.

Definition case_result (c : TestCase) : OneTest :=
  let '(target, ts_str, tests) := c in
  match strptime ts_str "%Y-%m-%dT%H:%M" with
  | inr ts => one_test_result target ts tests 0%Z
  | inl _ => mkOneTest [] [] 0 0 0 0 0 false
  end.

(** A counter of the run: the sum of what the test cases return. *)
Definition corpus_sum (f : OneTest -> nat) (corpus : list TestCase) : nat :=
  sum_over (fun c => f (case_result c)) corpus.

(** Every sentence of every test case has a correct candidate. *)
Definition covered (corpus : list TestCase) : bool :=
  forallb (fun c => negb (at_least_one_failed_ (case_result c))) corpus.

(** The number of sentences of the corpus. *)
Definition sentences (corpus : list TestCase) : nat :=
  sum_over (fun c : TestCase => List.length (snd c)) corpus.

(** The four summary records. *)
Definition summary (corpus : list TestCase) : list LogRecord :=
  let pos := corpus_sum pos_parses_ corpus in
  let neg := corpus_sum neg_parses_ corpus in
  let total := corpus_sum total_tests_ corpus in
  [ InfoRun total (List.length corpus) pos neg (pos + neg);
    InfoShareCorrect (ratio pos (pos + neg));
    InfoShareFirst (ratio (corpus_sum pos_first_parses_ corpus) (pos + neg));
    InfoShareBest (ratio (corpus_sum pos_best_scored_ corpus) total) ].

(** The [InfoShareFirst] records of a log. *)
Definition shares_first (log : list LogRecord) : list Q :=
  flat_map (fun r => match r with InfoShareFirst q => [q] | _ => [] end) log.

(** The progress bar's description for an entry. *)
Definition status_of (entry : TimeParseEntry) : string :=
  ("  " ++ ljust 70 (text entry))%string.

(** The JSON object [e] loads as the entry [t]. *)
Definition loads (e : json_object) (t : TimeParseEntry) : Prop :=
  e "text" = Some (text t)
  /\ (exists ref_time,
        e "ref_time" = Some ref_time
        /\ strptime ref_time "%Y-%m-%dT%H:%M:%S" = inr (ts t))
  /\ (exists gold_parse v,
        e "gold_parse" = Some gold_parse
        /\ parse_nb_string gold_parse = inr v
        /\ gold t = as_Artifact v).

(** Every sentence of the test case has a correct candidate. *)
Definition every_sentence_passes (c : TestCase) : Prop :=
  let '(target, ts_str, tests) := c in
  forall ts,
    strptime ts_str "%Y-%m-%dT%H:%M" = inr ts ->
    forall test, In test tests ->
    exists p, In p (parses ts 0%Z test)
              /\ String.eqb (nb_str (resolution p)) target = true.

(** ** The dataset builder *)

Lemma yields_app (D T : Type) (a b : list (Step D T)) :
  yields (a ++ b) = yields a ++ yields b.
Proof.
  induction a as [|[v|d] a IH]; simpl; [reflexivity | f_equal; exact IH | exact IH].
Qed.

Lemma yields_for_gen (T R : Type)
    (it : list (Step Display T)) (body : T -> list (Step Display R)) :
  yields (for_gen it body) = flat_map (fun v => yields (body v)) (yields it).
Proof.
  unfold for_gen.
  induction it as [|[v|d] it IH]; simpl.
  - reflexivity.
  - rewrite yields_app, IH. reflexivity.
  - exact IH.
Qed.

Lemma yields_map_Emit (T : Type) (it : list T) :
  yields (map (@Emit Display T) it) = it.
Proof.
  induction it as [|v it IH]; simpl; [reflexivity | f_equal; exact IH].
Qed.

Lemma yields_progress_bar (T : Type)
    (it : list T) (total : nat) (status_text : T -> string) :
  yields (_progress_bar it total status_text) = it.
Proof.
  unfold _progress_bar. simpl.
  induction it as [|v it IH]; simpl; [reflexivity | f_equal; exact IH].
Qed.

Lemma yields_flat_map (A T : Type) (f : A -> list (Step Display T)) (l : list A) :
  yields (flat_map f l) = flat_map (fun a => yields (f a)) l.
Proof.
  induction l as [|a l IH]; simpl; [reflexivity|].
  rewrite yields_app, IH. reflexivity.
Qed.

Lemma yields_partial_rules (parse : CTParse) (y : bool) :
  yields (partial_rules parse y) = rows_of y parse.
Proof.
  unfold partial_rules, rows_of.
  induction (range1 (List.length (production parse))) as [|i l IH]; simpl;
    [reflexivity | f_equal; exact IH].
Qed.

Lemma rows_of_length (y : bool) (parse : CTParse) :
  List.length (rows_of y parse) = List.length (production parse).
Proof.
  unfold rows_of, range1. rewrite length_map, length_seq. reflexivity.
Qed.

Lemma rows_of_nth (y : bool) (parse : CTParse) (i : nat) :
  1 <= i <= List.length (production parse) ->
  nth_error (rows_of y parse) (i - 1)
  = Some (map str (firstn i (production parse)), y).
Proof.
  intros Hi. unfold rows_of, range1.
  rewrite nth_error_map.
  replace (nth_error (seq 1 (List.length (production parse))) (i - 1))
    with (Some i); [reflexivity|].
  symmetry.
  assert (Hlt : i - 1 < List.length (seq 1 (List.length (production parse))))
    by (rewrite length_seq; lia).
  rewrite (nth_error_nth' _ 0 Hlt), seq_nth by lia.
  f_equal. lia.
Qed.

(** The rows of the whole dataset: entry by entry, candidate by
    candidate, whatever [progress] is. *)
Lemma dataset_rows
    (entries : list TimeParseEntry) (scorer : Scorer) (timeout : number)
    (max_stack_depth : Z) (relative_match_len : float) (progress : bool) :
  yields (make_partial_rule_dataset entries scorer timeout max_stack_depth
            relative_match_len progress)
  = flat_map
      (fun entry =>
         flat_map (fun parse => yields (dataset_of_parse entry parse))
           (ctparse_gen (text entry) (ts entry) relative_match_len timeout
              max_stack_depth scorer false))
      entries.
Proof.
  unfold make_partial_rule_dataset.
  rewrite yields_for_gen.
  replace (yields (if progress
                   then _progress_bar entries (List.length entries)
                          (fun entry => ("  " ++ ljust 70 (text entry))%string)
                   else map Emit entries))
    with entries
    by (destruct progress; [rewrite yields_progress_bar | rewrite yields_map_Emit];
        reflexivity).
  apply flat_map_ext. intros entry.
  unfold dataset_of_entry. apply yields_flat_map.
Qed.

(** C1: a candidate with a non-empty production of length n, yielded for
    an entry, contributes to the dataset exactly n consecutive rows, placed
    after the rows of everything yielded before it and before the rows of
    everything yielded after it; the row for prefix length i (1 <= i <= n)
    is the stringified prefix of length i, and every one of the n rows
    carries the label (parse.resolution == entry.gold). *)
Theorem partial_rule_rows_per_candidate
    (scorer : Scorer) (timeout : number) (max_stack_depth : Z)
    (relative_match_len : float) (progress : bool)
    (before : list TimeParseEntry) (entry : TimeParseEntry)
    (after : list TimeParseEntry)
    (earlier : list (option CTParse)) (parse : CTParse)
    (later : list (option CTParse)) :
  ctparse_gen (text entry) (ts entry) relative_match_len timeout
    max_stack_depth scorer false = earlier ++ Some parse :: later ->
  production parse <> [] ->
  let n := List.length (production parse) in
  let y := Artifact_eq (resolution parse) (gold entry) in
  let dataset es :=
    yields (make_partial_rule_dataset es scorer timeout max_stack_depth
              relative_match_len progress) in
  exists rows : list Row,
    dataset (before ++ entry :: after)
    = dataset before
      ++ flat_map (fun c => yields (dataset_of_parse entry c)) earlier
      ++ rows
      ++ flat_map (fun c => yields (dataset_of_parse entry c)) later
      ++ dataset after
    /\ List.length rows = n
    /\ (forall i, 1 <= i <= n ->
          exists X, nth_error rows (i - 1) = Some (X, y)
                    /\ X = map str (firstn i (production parse))
                    /\ List.length X = i)
    /\ (forall row, In row rows -> snd row = y).
Proof.
  intros Hgen _ n y dataset.
  exists (rows_of y parse).
  split; [|split; [|split]].
  - unfold dataset. rewrite !dataset_rows.
    rewrite flat_map_app. simpl. rewrite Hgen.
    rewrite flat_map_app. simpl.
    fold y. rewrite yields_partial_rules.
    rewrite <- !app_assoc. reflexivity.
  - apply rows_of_length.
  - intros i Hi. eexists. split; [apply rows_of_nth; exact Hi|].
    split; [reflexivity|].
    rewrite length_map, length_firstn. unfold n in Hi. lia.
  - intros row Hin. unfold rows_of in Hin.
    apply in_map_iff in Hin. destruct Hin as [i [<- _]]. reflexivity.
Qed.

(** C8: with and without the progress bar, the builder yields the same
    rows in the same order. *)
Theorem progress_does_not_change_rows
    (entries : list TimeParseEntry) (scorer : Scorer) (timeout : number)
    (max_stack_depth : Z) (relative_match_len : float) :
  yields (make_partial_rule_dataset entries scorer timeout max_stack_depth
            relative_match_len true)
  = yields (make_partial_rule_dataset entries scorer timeout max_stack_depth
              relative_match_len false).
Proof.
  rewrite !dataset_rows. reflexivity.
Qed.

(** The progress bar is what differs: nothing is shown without it. *)
Lemma no_progress_shows_nothing
    (entries : list TimeParseEntry) (scorer : Scorer) (timeout : number)
    (max_stack_depth : Z) (relative_match_len : float) :
  shown (make_partial_rule_dataset entries scorer timeout max_stack_depth
           relative_match_len false) = [].
Proof.
  unfold make_partial_rule_dataset, for_gen.
  induction entries as [|e es IH]; simpl; [reflexivity|].
  assert (Hs : forall tr1 tr2 : list (Step Display Row),
             shown (tr1 ++ tr2) = shown tr1 ++ shown tr2).
  { induction tr1 as [|[v|d] tr1 IH1]; intros tr2; simpl;
      [reflexivity | apply IH1 | f_equal; apply IH1]. }
  rewrite Hs, IH, app_nil_r.
  unfold dataset_of_entry.
  induction (ctparse_gen (text e) (ts e) relative_match_len timeout
               max_stack_depth scorer false) as [|c cs IHc]; simpl;
    [reflexivity|].
  rewrite Hs, IHc, app_nil_r.
  destruct c as [p|]; simpl; [|reflexivity].
  unfold partial_rules.
  induction (range1 (List.length (production p))) as [|i l IHl]; simpl;
    [reflexivity | exact IHl].
Qed.

(** C9: the builder is a total function of the candidate stream (it has
    no raising outcome); a None candidate contributes no row, so the
    dataset is the one of the candidates that are not None; and a candidate
    whose resolution differs from the gold value contributes one row per
    prefix, each labeled false. *)
Theorem mismatch_and_None_do_not_raise
    (entries : list TimeParseEntry) (scorer : Scorer) (timeout : number)
    (max_stack_depth : Z) (relative_match_len : float) (progress : bool) :
  (forall entry, dataset_of_parse entry None = [])
  /\ yields (make_partial_rule_dataset entries scorer timeout
               max_stack_depth relative_match_len progress)
     = flat_map
         (fun entry =>
            flat_map
              (fun parse =>
                 rows_of (Artifact_eq (resolution parse) (gold entry)) parse)
              (somes (ctparse_gen (text entry) (ts entry) relative_match_len
                        timeout max_stack_depth scorer false)))
         entries
  /\ (forall entry parse,
        Artifact_eq (resolution parse) (gold entry) = false ->
        yields (dataset_of_parse entry (Some parse))
        = map (fun i => (map str (firstn i (production parse)), false))
              (range1 (List.length (production parse)))).
Proof.
  split; [reflexivity|]. split.
  - rewrite dataset_rows. apply flat_map_ext. intros entry.
    induction (ctparse_gen (text entry) (ts entry) relative_match_len timeout
                 max_stack_depth scorer false) as [|[p|] cs IH]; simpl.
    + reflexivity.
    + rewrite yields_partial_rules, IH. reflexivity.
    + exact IH.
  - intros entry parse Hne. simpl. rewrite yields_partial_rules, Hne.
    reflexivity.
Qed.

(** ** The validator *)

(** *** Monad laws used below *)

Arguments bind : simpl never.
Arguments ret : simpl never.
Arguments raise : simpl never.
Arguments logger : simpl never.

Lemma bind_ret_l (A B : Type) (a : A) (k : A -> M B) : bind (ret a) k = k a.
Proof. unfold bind, ret. destruct (k a). reflexivity. Qed.

Lemma bind_log (A B : Type) (log : list LogRecord) (a : A) (k : A -> M B) :
  bind (log, inr a) k = (log ++ fst (k a), snd (k a)).
Proof. unfold bind. destruct (k a). reflexivity. Qed.

Lemma bind_raise (A B : Type) (log : list LogRecord) (e : exn) (k : A -> M B) :
  bind (log, inl e) k = (log, inl e).
Proof. reflexivity. Qed.

(** *** The loop over the candidates of a sentence *)

Lemma somes_map_Some (A : Type) (l : list A) : somes (map Some l) = l.
Proof. induction l as [|a l IH]; simpl; [reflexivity | f_equal; exact IH]. Qed.

Lemma map_Some_somes (A : Type) (l : list (option A)) :
  ~ In None l -> l = map Some (somes l).
Proof.
  induction l as [|[a|] l IH]; simpl; intros H.
  - reflexivity.
  - f_equal. apply IH. intros Hin. apply H. right. exact Hin.
  - exfalso. apply H. left. reflexivity.
Qed.

Lemma answers_parses (ts : datetime) (msd : Z) (test : string) :
  answers ts msd test ->
  candidates ts msd test = map Some (parses ts msd test)
  /\ parses ts msd test <> [].
Proof.
  intros [Hne Hnone]. unfold parses.
  split; [apply map_Some_somes; exact Hnone|].
  destruct (candidates ts msd test) as [|[p|] cs]; simpl.
  - congruence.
  - discriminate.
  - exfalso. apply Hnone. left. reflexivity.
Qed.

Lemma fold_append_sample (parse : CTParse) (y : bool) (idx : list nat) (l : Locals) :
  fold_left (append_sample parse y) idx l
  = mkLocals (all_tests_pass l)
      (Xs l ++ map (fun i => map str (firstn i (production parse))) idx)
      (ys l ++ repeat y (List.length idx))
      (pos_parses l) (neg_parses l) (pos_first_parses l) (pos_best_scored l)
      (total_tests l) (one_prod_passes l) (first_prod l) (y_score l).
Proof.
  revert l. induction idx as [|i idx IH]; intros l; simpl.
  - destruct l; simpl. rewrite !app_nil_r. reflexivity.
  - rewrite IH. unfold append_sample; simpl.
    rewrite <- !app_assoc. reflexivity.
Qed.

Lemma count_cons (A : Type) (f : A -> bool) (a : A) (l : list A) :
  count f (a :: l) = int_of_bool (f a) + count f l.
Proof. unfold count. simpl. destruct (f a); reflexivity. Qed.

Lemma count_split (A : Type) (f : A -> bool) (l : list A) :
  count f l + count (fun a => negb (f a)) l = List.length l.
Proof.
  induction l as [|a l IH]; [reflexivity|].
  rewrite !count_cons. simpl. destruct (f a); simpl; lia.
Qed.

Lemma for_each_one_parse (target : string) (ps : list CTParse) (l : Locals) :
  for_each (map Some ps) (one_parse target) l = ret (after_parses target ps l).
Proof.
  revert l. induction ps as [|p ps IH]; intros l; simpl.
  - unfold after_parses. destruct l; simpl.
    rewrite !app_nil_r, !Nat.add_0_r, orb_false_r. reflexivity.
  - unfold one_parse at 1. rewrite bind_ret_l, IH, fold_append_sample.
    unfold after_parses; simpl. rewrite !count_cons.
    unfold prefixes, labels, range1. rewrite length_seq.
    fold (label target p).
    f_equal. f_equal.
    + rewrite <- app_assoc. reflexivity.
    + rewrite <- app_assoc. reflexivity.
    + lia.
    + lia.
    + destruct ps; simpl; rewrite ?andb_false_r; simpl; lia.
    + rewrite orb_assoc. reflexivity.
    + destruct ps; reflexivity.
    + rewrite <- app_assoc. reflexivity.
Qed.

(** A sentence the generator does not answer at all makes [max] raise,
    after the warning. *)
Lemma one_sentence_no_candidate
    (target : string) (ts : datetime) (tests : list string) (msd : Z)
    (l : Locals) (test : string) :
  candidates ts msd test = [] ->
  one_sentence target ts tests msd l test
  = ([WarnNeverProduced target test],
     inl (ValueError max_empty)).
Proof.
  intros Hc. unfold one_sentence. unfold candidates in Hc. rewrite Hc.
  reflexivity.
Qed.

Lemma one_sentence_answered
    (target : string) (ts : datetime) (tests : list string) (msd : Z)
    (l : Locals) (test : string) :
  answers ts msd test ->
  one_sentence target ts tests msd l test
  = ((if existsb (label target) (parses ts msd test) then []
      else [WarnNeverProduced target test]),
     inr (after_sentence target tests (parses ts msd test) l)).
Proof.
  intros Ha. destruct (answers_parses Ha) as [Hc Hne].
  unfold one_sentence. unfold candidates in Hc. rewrite Hc.
  rewrite for_each_one_parse, bind_ret_l.
  unfold after_parses at 1 2; simpl.
  destruct (parses ts msd test) as [|p ps] eqn:Hps; [congruence|].
  unfold after_sentence, best_correct, first_correct.
  simpl. rewrite andb_true_r.
  destruct (label target p || existsb (label target) ps); simpl; reflexivity.
Qed.

(** *** One test case *)

Lemma for_each_one_sentence
    (target : string) (ts : datetime) (tests : list string) (msd : Z)
    (todo : list string) (l : Locals) :
  (forall test, In test todo -> answers ts msd test) ->
  exists l' : Locals,
    for_each todo (one_sentence target ts tests msd) l
    = (flat_map
         (fun test =>
            if passes target ts msd test then []
            else [WarnNeverProduced target test])
         todo,
       inr l')
    /\ all_tests_pass l'
       = all_tests_pass l && forallb (passes target ts msd) todo
    /\ Xs l'
       = Xs l ++ flat_map (fun test => flat_map prefixes (parses ts msd test)) todo
    /\ ys l'
       = ys l
         ++ flat_map (fun test => flat_map (labels target) (parses ts msd test)) todo
    /\ pos_parses l'
       = pos_parses l
         + sum_over (fun test => count (label target) (parses ts msd test)) todo
    /\ neg_parses l'
       = neg_parses l
         + sum_over
             (fun test =>
                count (fun p => negb (label target p)) (parses ts msd test))
             todo
    /\ pos_first_parses l'
       = pos_first_parses l
         + sum_over (fun test => first_correct target (parses ts msd test)) todo
    /\ pos_best_scored l'
       = pos_best_scored l
         + sum_over (fun test => best_correct target (parses ts msd test)) todo
    /\ total_tests l'
       = total_tests l + List.length todo * List.length tests.
Proof.
  revert l. induction todo as [|test todo IH]; intros l Hans.
  - exists l. unfold sum_over. simpl.
    rewrite andb_true_r, !app_nil_r, !Nat.add_0_r.
    repeat split; reflexivity.
  - assert (Ha : answers ts msd test) by (apply Hans; left; reflexivity).
    assert (Hrest : forall t, In t todo -> answers ts msd t)
      by (intros t Ht; apply Hans; right; exact Ht).
    destruct (IH (after_sentence target tests (parses ts msd test) l) Hrest)
      as (l' & Hrun & Hpass & HXs & Hys & Hpos & Hneg & Hfirst & Hbest & Htot).
    exists l'.
    change (for_each (test :: todo) (one_sentence target ts tests msd) l)
      with (bind (one_sentence target ts tests msd l test)
              (for_each todo (one_sentence target ts tests msd))).
    rewrite (one_sentence_answered target tests l Ha), bind_log, Hrun.
    rewrite Hpass, HXs, Hys, Hpos, Hneg, Hfirst, Hbest, Htot.
    unfold sum_over, passes. simpl.
    rewrite <- !app_assoc, <- !andb_assoc.
    repeat split; lia.
Qed.

(** A test case whose timestamp parses and whose sentences the generator
    answers: what [_run_corpus_one_test] logs and returns. *)
Lemma run_corpus_one_test_answered
    (target ts_str : string) (tests : list string) (msd : Z) (ts : datetime) :
  strptime ts_str "%Y-%m-%dT%H:%M" = inr ts ->
  (forall test, In test tests -> answers ts msd test) ->
  _run_corpus_one_test target ts_str tests msd
  = (one_test_log target ts tests msd,
     inr (one_test_result target ts tests msd)).
Proof.
  intros Hts Hans. unfold _run_corpus_one_test. rewrite Hts.
  destruct (@for_each_one_sentence target ts tests msd tests
              (mkLocals true [] [] 0 0 0 0 0 false true []) Hans)
    as (l' & Hrun & Hpass & HXs & Hys & Hpos & Hneg & Hfirst & Hbest & Htot).
  rewrite Hrun, bind_log.
  unfold one_test_log, one_test_result.
  rewrite Hpass, HXs, Hys, Hpos, Hneg, Hfirst, Hbest, Htot. simpl.
  destruct (forallb (passes target ts msd) tests); simpl;
    unfold when, logger, ret, bind; simpl; rewrite ?app_nil_r; reflexivity.
Qed.

(** *** The whole corpus *)

Lemma one_case_runs (t : Totals) (c : TestCase) :
  runs_through c ->
  one_case t c
  = (case_log c,
     inr (mkTotals
            (at_least_one_failed t || at_least_one_failed_ (case_result c))
            (t_pos_parses t + pos_parses_ (case_result c))
            (t_neg_parses t + neg_parses_ (case_result c))
            (t_pos_first_parses t + pos_first_parses_ (case_result c))
            (t_pos_best_scored t + pos_best_scored_ (case_result c))
            (t_total_tests t + total_tests_ (case_result c))
            (t_Xs t ++ Xs_ (case_result c))
            (t_ys t ++ ys_ (case_result c)))).
Proof.
  destruct c as [[target ts_str] tests]. intros (ts & Hts & Hans).
  unfold one_case, case_log, case_result.
  rewrite (run_corpus_one_test_answered target tests Hts Hans), Hts.
  rewrite bind_log. unfold ret; simpl. rewrite app_nil_r. reflexivity.
Qed.

Lemma for_each_one_case (corpus : list TestCase) (t : Totals) :
  Forall runs_through corpus ->
  for_each corpus one_case t
  = (flat_map case_log corpus,
     inr (mkTotals
            (at_least_one_failed t || negb (covered corpus))
            (t_pos_parses t + corpus_sum pos_parses_ corpus)
            (t_neg_parses t + corpus_sum neg_parses_ corpus)
            (t_pos_first_parses t + corpus_sum pos_first_parses_ corpus)
            (t_pos_best_scored t + corpus_sum pos_best_scored_ corpus)
            (t_total_tests t + corpus_sum total_tests_ corpus)
            (t_Xs t ++ flat_map (fun c => Xs_ (case_result c)) corpus)
            (t_ys t ++ flat_map (fun c => ys_ (case_result c)) corpus))).
Proof.
  intros Hall. revert t.
  induction Hall as [|c corpus Hc _ IH]; intros t.
  - destruct t; unfold corpus_sum, sum_over; simpl.
    rewrite orb_false_r, !Nat.add_0_r, !app_nil_r. reflexivity.
  - change (for_each (c :: corpus) one_case t)
      with (bind (one_case t c) (for_each corpus one_case)).
    rewrite (one_case_runs t c Hc), bind_log, IH.
    unfold corpus_sum, sum_over, covered; simpl.
    rewrite negb_andb, negb_involutive, orb_assoc.
    rewrite <- !app_assoc, !Nat.add_assoc. reflexivity.
Qed.

(** With at least one candidate and one sentence counted, the report is
    logged in full and the verdict follows the flag. *)
Lemma report_defined (targets : nat) (t : Totals) :
  t_pos_parses t + t_neg_parses t <> 0 ->
  t_total_tests t <> 0 ->
  report targets t
  = ([ InfoRun (t_total_tests t) targets (t_pos_parses t) (t_neg_parses t)
         (t_pos_parses t + t_neg_parses t);
       InfoShareCorrect
         (ratio (t_pos_parses t) (t_pos_parses t + t_neg_parses t));
       InfoShareFirst
         (ratio (t_pos_first_parses t) (t_pos_parses t + t_neg_parses t));
       InfoShareBest (ratio (t_pos_best_scored t) (t_total_tests t)) ],
     if at_least_one_failed t
     then inl (Exception "ctparse corpus has errors")
     else inr (t_Xs t, t_ys t)).
Proof.
  intros Hparses Htotal. unfold report, truediv.
  destruct (t_pos_parses t + t_neg_parses t) as [|n] eqn:Hn; [congruence|].
  destruct (t_total_tests t) as [|m] eqn:Hm; [congruence|].
  destruct (at_least_one_failed t); reflexivity.
Qed.

Lemma sum_over_le (A : Type) (f g : A -> nat) (l : list A) :
  (forall a, In a l -> f a <= g a) -> sum_over f l <= sum_over g l.
Proof.
  unfold sum_over. induction l as [|a l IH]; intros H; simpl; [lia|].
  assert (f a <= g a) by (apply H; left; reflexivity).
  assert (list_sum (map f l) <= list_sum (map g l))
    by (apply IH; intros b Hb; apply H; right; exact Hb).
  lia.
Qed.

Lemma sum_over_plus (A : Type) (f g : A -> nat) (l : list A) :
  sum_over f l + sum_over g l = sum_over (fun a => f a + g a) l.
Proof.
  unfold sum_over. induction l as [|a l IH]; simpl; lia.
Qed.

Lemma sum_over_const_1 (A : Type) (l : list A) :
  sum_over (fun _ => 1) l = List.length l.
Proof.
  unfold sum_over. induction l as [|a l IH]; simpl; [reflexivity | lia].
Qed.

(** Each sentence of a test case that runs through is counted in
    [total_tests], and has at least one candidate counted. *)
Lemma case_counts_sentences (c : TestCase) :
  runs_through c ->
  List.length (snd c) <= total_tests_ (case_result c)
  /\ List.length (snd c)
     <= pos_parses_ (case_result c) + neg_parses_ (case_result c).
Proof.
  destruct c as [[target ts_str] tests]. intros (ts & Hts & Hans).
  unfold case_result. rewrite Hts. simpl. split.
  - destruct tests as [|t tests]; simpl; lia.
  - rewrite sum_over_plus, <- sum_over_const_1.
    apply sum_over_le. intros test Hin.
    rewrite count_split.
    destruct (answers_parses (Hans test Hin)) as [_ Hne].
    destruct (parses ts 0 test); [congruence | simpl; lia].
Qed.

Lemma corpus_counts_sentences (corpus : list TestCase) :
  Forall runs_through corpus ->
  sentences corpus <= corpus_sum total_tests_ corpus
  /\ sentences corpus
     <= corpus_sum pos_parses_ corpus + corpus_sum neg_parses_ corpus.
Proof.
  intros Hall. unfold sentences, corpus_sum.
  rewrite sum_over_plus. split; apply sum_over_le; intros c Hin;
    apply case_counts_sentences; exact (proj1 (Forall_forall _ _) Hall c Hin).
Qed.

(** The run of a corpus with at least one sentence, all of whose test
    cases run through: every test case is processed, the summary is logged
    in full, and then the run returns the dataset when the corpus is
    covered and raises the coverage exception when it is not. *)
Lemma run_corpus_runs_through (corpus : list TestCase) :
  Forall runs_through corpus ->
  sentences corpus <> 0 ->
  run_corpus corpus
  = (flat_map case_log corpus ++ summary corpus,
     if covered corpus
     then inr (flat_map (fun c => Xs_ (case_result c)) corpus,
               flat_map (fun c => ys_ (case_result c)) corpus)
     else inl (Exception "ctparse corpus has errors")).
Proof.
  intros Hall Hsent.
  destruct (corpus_counts_sentences Hall) as [Htot Hpn].
  unfold run_corpus. rewrite (for_each_one_case _ Hall), bind_log.
  rewrite report_defined; simpl; try lia.
  unfold summary. destruct (covered corpus); reflexivity.
Qed.

(** *** Claims about the validator *)

Lemma for_each_app (A S : Type) (a b : list A) (body : S -> A -> M S) (s : S) :
  for_each (a ++ b) body s = bind (for_each a body s) (for_each b body).
Proof.
  revert s. induction a as [|x a IH]; intros s.
  - simpl. rewrite bind_ret_l. reflexivity.
  - change (for_each ((x :: a) ++ b) body s)
      with (bind (body s x) (for_each (a ++ b) body)).
    change (for_each (x :: a) body s)
      with (bind (body s x) (for_each a body)).
    destruct (body s x) as [log [e|s']]; [reflexivity|].
    rewrite !bind_log, IH.
    destruct (for_each a body s') as [log' [e|s'']]; simpl;
      rewrite ?bind_raise, ?bind_log; simpl; rewrite ?app_assoc; reflexivity.
Qed.

Lemma count_app (A : Type) (f : A -> bool) (a b : list A) :
  count f (a ++ b) = count f a + count f b.
Proof. unfold count. rewrite filter_app, length_app. reflexivity. Qed.

Lemma count_flat_map (A B : Type) (f : B -> bool) (g : A -> list B) (l : list A) :
  count f (flat_map g l) = sum_over (fun a => count f (g a)) l.
Proof.
  unfold sum_over. induction l as [|a l IH]; simpl; [reflexivity|].
  rewrite count_app, IH. reflexivity.
Qed.

Lemma flat_map_nested (A B C : Type) (f : B -> list C) (g : A -> list B) (l : list A) :
  flat_map f (flat_map g l) = flat_map (fun a => flat_map f (g a)) l.
Proof.
  induction l as [|a l IH]; simpl; [reflexivity|].
  rewrite flat_map_app, IH. reflexivity.
Qed.

(** A test case with a sentence the generator does not answer. *)
Lemma one_case_unanswered
    (t : Totals) (target ts_str : string) (ts : datetime)
    (before after : list string) (test : string) :
  strptime ts_str "%Y-%m-%dT%H:%M" = inr ts ->
  (forall s, In s before -> answers ts 0%Z s) ->
  candidates ts 0%Z test = [] ->
  one_case t (target, ts_str, before ++ test :: after)
  = (flat_map
       (fun s => if passes target ts 0%Z s then []
                 else [WarnNeverProduced target s])
       before
     ++ [WarnNeverProduced target test],
     inl (ValueError max_empty)).
Proof.
  intros Hts Hbefore Hnone.
  unfold one_case, _run_corpus_one_test. rewrite Hts.
  rewrite for_each_app.
  destruct (@for_each_one_sentence target ts (before ++ test :: after) 0%Z
              before (mkLocals true [] [] 0 0 0 0 0 false true []) Hbefore)
    as (l' & Hrun & _).
  rewrite Hrun.
  change (for_each (test :: after) ?body)
    with (fun l => bind (body l test) (for_each after body)).
  rewrite bind_log.
  rewrite (one_sentence_no_candidate target (before ++ test :: after) l' Hnone).
  rewrite !bind_raise. reflexivity.
Qed.

(** C2: the run stops at the first sentence for which the generator
    yields no candidate: after the test cases [done] and the sentences
    [before] of the current test case, it logs the sentence's warning and
    raises the ValueError of max() on an empty list; the sentences [after]
    and the test cases [rest] are never processed, no summary is logged and
    the coverage exception is not the error raised. *)
Theorem run_corpus_stops_at_unanswered_sentence
    (done rest : list TestCase) (target ts_str : string) (ts : datetime)
    (before after : list string) (test : string) :
  Forall runs_through done ->
  strptime ts_str "%Y-%m-%dT%H:%M" = inr ts ->
  (forall t, In t before -> answers ts 0%Z t) ->
  candidates ts 0%Z test = [] ->
  run_corpus (done ++ (target, ts_str, before ++ test :: after) :: rest)
  = (flat_map case_log done
     ++ flat_map
          (fun t => if passes target ts 0%Z t then []
                    else [WarnNeverProduced target t])
          before
     ++ [WarnNeverProduced target test],
     inl (ValueError max_empty)).
Proof.
  intros Hdone Hts Hbefore Hnone.
  unfold run_corpus.
  rewrite for_each_app, (for_each_one_case _ Hdone).
  change (for_each ((target, ts_str, before ++ test :: after) :: rest) one_case)
    with (fun t => bind (one_case t (target, ts_str, before ++ test :: after))
                     (for_each rest one_case)).
  rewrite bind_log.
  rewrite (@one_case_unanswered _ target ts_str ts before after test
             Hts Hbefore Hnone).
  rewrite !bind_raise. reflexivity.
Qed.

Lemma shares_first_app (a b : list LogRecord) :
  shares_first (a ++ b) = shares_first a ++ shares_first b.
Proof. apply flat_map_app. Qed.

Lemma shares_first_case_log (c : TestCase) : shares_first (case_log c) = [].
Proof.
  destruct c as [[target ts_str] tests]. unfold case_log.
  destruct (strptime ts_str "%Y-%m-%dT%H:%M") as [e|ts]; [reflexivity|].
  unfold one_test_log. rewrite shares_first_app.
  destruct (forallb (passes target ts 0) tests); simpl; rewrite app_nil_r;
    induction tests as [|t tests IH]; simpl; try reflexivity;
    rewrite shares_first_app, IH; destruct (passes target ts 0 t); reflexivity.
Qed.

(** C5, amended: in a run that reaches the summary (every test case runs
    through and the corpus has a sentence), exactly one second ratio is
    logged, and it is the count of candidates that are correct and the
    first yielded for their sentence divided by the number of all
    candidates, positive and negative. *)
Theorem share_first_is_over_all_parses (corpus : list TestCase) :
  Forall runs_through corpus ->
  sentences corpus <> 0 ->
  shares_first (fst (run_corpus corpus))
  = [ ratio (corpus_sum pos_first_parses_ corpus)
            (corpus_sum pos_parses_ corpus + corpus_sum neg_parses_ corpus) ].
Proof.
  intros Hall Hsent. rewrite (run_corpus_runs_through Hall Hsent). simpl.
  rewrite shares_first_app.
  replace (shares_first (flat_map case_log corpus)) with (@nil Q);
    [reflexivity|].
  clear. induction corpus as [|c corpus IH]; simpl; [reflexivity|].
  rewrite shares_first_app, shares_first_case_log, <- IH. reflexivity.
Qed.

(** C6: for a test case that runs through, every label the validator
    emits and every counter it updates is computed from
    [nb_str(resolution) == target]: the labels of the rows, the positive
    and negative counts, the first-yielded count, the pairs given to max
    and the pass/fail flag; two candidates whose resolutions have the same
    canonical text get the same label. *)
Theorem validator_label_is_canonical_text
    (target ts_str : string) (tests : list string) (msd : Z) (ts : datetime) :
  strptime ts_str "%Y-%m-%dT%H:%M" = inr ts ->
  (forall test, In test tests -> answers ts msd test) ->
  let y := fun parse => String.eqb (nb_str (resolution parse)) target in
  let yielded := flat_map (parses ts msd) tests in
  exists (log : list LogRecord) (r : OneTest),
    _run_corpus_one_test target ts_str tests msd = (log, inr r)
    /\ Xs_ r = flat_map prefixes yielded
    /\ ys_ r
       = flat_map (fun p => repeat (y p) (List.length (production p))) yielded
    /\ pos_parses_ r = count y yielded
    /\ neg_parses_ r = count (fun p => negb (y p)) yielded
    /\ pos_first_parses_ r
       = sum_over
           (fun test =>
              match parses ts msd test with
              | [] => 0
              | p :: _ => int_of_bool (y p)
              end)
           tests
    /\ pos_best_scored_ r
       = sum_over
           (fun test =>
              match map (fun p => (score p, y p)) (parses ts msd test) with
              | [] => 0
              | x :: xs => int_of_bool (snd (max_scan fst x xs))
              end)
           tests
    /\ at_least_one_failed_ r
       = negb (forallb (fun test => existsb y (parses ts msd test)) tests)
    /\ (forall p q,
          nb_str (resolution p) = nb_str (resolution q) -> y p = y q).
Proof.
  intros Hts Hans y yielded.
  exists (one_test_log target ts tests msd),
         (one_test_result target ts tests msd).
  split; [apply (run_corpus_one_test_answered target tests Hts Hans)|].
  unfold one_test_result, yielded; simpl.
  rewrite !flat_map_nested, !count_flat_map.
  repeat split.
  intros p q Hpq. unfold y. rewrite Hpq. reflexivity.
Qed.

(** C10, amended: on a corpus in which no sentence is evaluated (the empty
    corpus, or test cases with well-formed timestamps and empty sentence
    lists) run_corpus logs the first summary line with all counters zero
    and then raises ZeroDivisionError at the first ratio; it does not
    return the empty dataset. *)
Theorem run_corpus_without_sentences_divides_by_zero (corpus : list TestCase) :
  Forall
    (fun c : TestCase =>
       snd c = []
       /\ exists ts, strptime (snd (fst c)) "%Y-%m-%dT%H:%M" = inr ts)
    corpus ->
  run_corpus corpus
  = ([InfoRun 0 (List.length corpus) 0 0 0], inl ZeroDivisionError).
Proof.
  intros Hall.
  assert (Hruns : Forall runs_through corpus).
  { eapply Forall_impl; [|exact Hall].
    intros [[target ts_str] tests] [Hnil [ts Hts]]. simpl in *. subst tests.
    exists ts. split; [exact Hts | intros t []]. }
  assert (Hres : forall c, In c corpus ->
                   case_log c = []
                   /\ case_result c = mkOneTest [] [] 0 0 0 0 0 false).
  { intros [[target ts_str] tests] Hin.
    destruct (proj1 (Forall_forall _ _) Hall _ Hin) as [Hnil [ts Hts]].
    simpl in *. subst tests. rewrite Hts. split; reflexivity. }
  unfold run_corpus. rewrite (for_each_one_case _ Hruns), bind_log.
  assert (Hlog : flat_map case_log corpus = []).
  { clear Hall Hruns. induction corpus as [|c corpus IH]; simpl; [reflexivity|].
    rewrite (proj1 (Hres c (or_introl eq_refl))), IH; [reflexivity|].
    intros c' Hc'. apply Hres. right. exact Hc'. }
  assert (Hsum : forall f : OneTest -> nat,
             f (mkOneTest [] [] 0 0 0 0 0 false) = 0 -> corpus_sum f corpus = 0).
  { intros f Hf. clear Hall Hruns Hlog. unfold corpus_sum, sum_over.
    induction corpus as [|c corpus IH]; simpl; [reflexivity|].
    rewrite (proj2 (Hres c (or_introl eq_refl))), Hf, IH; [reflexivity|].
    intros c' Hc'. apply Hres. right. exact Hc'. }
  rewrite Hlog. unfold report. simpl.
  rewrite !Hsum by reflexivity. reflexivity.
Qed.

(** ** The gold-value parser *)

Lemma prefix_first (c : ascii) (p s : string) :
  String.prefix (String c p) s = true ->
  exists s', s = String c s'.
Proof.
  destruct s as [|d s']; simpl; [discriminate|].
  destruct (ascii_dec c d) as [->|]; [|discriminate].
  intros _. exists s'. reflexivity.
Qed.

(** C7: parse_nb_string hands a string that starts with Time, Interval or
    Duration to the from_str of that type (on the text between the 7 or 11
    leading characters and the last character) and returns what it
    returns, or raises what it raises; on every other string it raises
    ValueError and returns nothing. *)
Theorem parse_nb_string_dispatch (gold_parse : string) :
  (String.prefix "Time" gold_parse = true ->
   parse_nb_string gold_parse
   = on_ok NbTime (Time_from_str (slice_to_last 7 gold_parse)))
  /\ (String.prefix "Interval" gold_parse = true ->
      parse_nb_string gold_parse
      = on_ok NbInterval (Interval_from_str (slice_to_last 11 gold_parse)))
  /\ (String.prefix "Duration" gold_parse = true ->
      parse_nb_string gold_parse
      = on_ok NbDuration (Duration_from_str (slice_to_last 11 gold_parse)))
  /\ (String.prefix "Time" gold_parse = false ->
      String.prefix "Interval" gold_parse = false ->
      String.prefix "Duration" gold_parse = false ->
      parse_nb_string gold_parse
      = inl (ValueError ("'" ++ gold_parse ++ "' has an invalid format")%string)).
Proof.
  unfold parse_nb_string. repeat split.
  - intros ->. reflexivity.
  - intros H. destruct (prefix_first _ _ _ H) as [s' ->].
    rewrite H. reflexivity.
  - intros H. destruct (prefix_first _ _ _ H) as [s' ->].
    rewrite H. reflexivity.
  - intros -> -> ->. reflexivity.
Qed.

(** What [total_tests] holds after a run: each test case adds the length
    of its sentence list once per sentence. *)
Lemma total_tests_is_sum_of_squares (corpus : list TestCase) :
  Forall runs_through corpus ->
  corpus_sum total_tests_ corpus
  = sum_over
      (fun c : TestCase => List.length (snd c) * List.length (snd c)) corpus.
Proof.
  intros Hall. unfold corpus_sum, sum_over.
  induction Hall as [|c corpus Hc _ IH]; simpl; [reflexivity|].
  rewrite IH. f_equal.
  destruct c as [[target ts_str] tests]. destruct Hc as (ts & Hts & _).
  unfold case_result. rewrite Hts. reflexivity.
Qed.

(** ** More on the dataset builder *)

Lemma shown_app (D T : Type) (a b : list (Step D T)) :
  shown (a ++ b) = shown a ++ shown b.
Proof.
  induction a as [|[v|d] a IH]; simpl; [reflexivity | exact IH | f_equal; exact IH].
Qed.

Lemma shown_dataset_of_entry
    (scorer : Scorer) (timeout : number) (max_stack_depth : Z)
    (relative_match_len : float) (entry : TimeParseEntry) :
  shown (dataset_of_entry scorer timeout max_stack_depth relative_match_len entry)
  = [].
Proof.
  unfold dataset_of_entry.
  induction (ctparse_gen (text entry) (ts entry) relative_match_len timeout
               max_stack_depth scorer false) as [|c cs IH]; simpl;
    [reflexivity|].
  rewrite shown_app, IH, app_nil_r.
  destruct c as [p|]; simpl; [|reflexivity].
  unfold partial_rules.
  induction (range1 (List.length (production p))) as [|i l IHl]; simpl;
    [reflexivity | exact IHl].
Qed.

Lemma string_length_app (a b : string) :
  String.length (a ++ b) = String.length a + String.length b.
Proof. induction a as [|c a IH]; simpl; [reflexivity | f_equal; exact IH]. Qed.

Lemma string_length_of_list (l : list ascii) :
  String.length (string_of_list_ascii l) = List.length l.
Proof. induction l as [|c l IH]; simpl; [reflexivity | f_equal; exact IH]. Qed.

Lemma prefix_append (a b : string) : String.prefix a (a ++ b) = true.
Proof.
  induction a as [|c a IH]; simpl; [destruct b; reflexivity|].
  destruct (ascii_dec c c) as [_|Hne]; [exact IH | congruence].
Qed.

Lemma ljust_length (width : nat) (s : string) :
  String.length (ljust width s) = Nat.max width (String.length s).
Proof.
  unfold ljust. rewrite string_length_app, string_length_of_list, repeat_length.
  lia.
Qed.

(** X1: with the progress bar, the builder creates one bar whose total is
    the number of entries and sets one description per entry, in the order
    of the entries; a description is two spaces followed by the entry's
    text padded to 70 characters, never truncated.  Without the progress
    bar nothing is shown. *)
Theorem progress_shows_one_description_per_entry
    (entries : list TimeParseEntry) (scorer : Scorer) (timeout : number)
    (max_stack_depth : Z) (relative_match_len : float) :
  shown (make_partial_rule_dataset entries scorer timeout max_stack_depth
           relative_match_len true)
  = TqdmNew (List.length entries)
    :: map (fun entry => SetDescription (status_of entry)) entries
  /\ shown (make_partial_rule_dataset entries scorer timeout max_stack_depth
              relative_match_len false)
     = []
  /\ (forall entry,
        String.length (status_of entry)
        = 2 + Nat.max 70 (String.length (text entry))
        /\ String.prefix ("  " ++ text entry) (status_of entry) = true).
Proof.
  split; [|split].
  - unfold make_partial_rule_dataset, _progress_bar, for_gen. simpl. f_equal.
    generalize (List.length entries). intros _.
    induction entries as [|e es IH]; simpl; [reflexivity|].
    rewrite shown_app, shown_dataset_of_entry. simpl. f_equal. exact IH.
  - unfold make_partial_rule_dataset, for_gen.
    induction entries as [|e es IH]; simpl; [reflexivity|].
    rewrite shown_app, shown_dataset_of_entry. exact IH.
  - intros entry. unfold status_of. split.
    + change ("  " ++ ljust 70 (text entry))%string
        with (String " " (String " " (ljust 70 (text entry)))).
      simpl. rewrite ljust_length. reflexivity.
    + unfold ljust.
      change ("  " ++ (text entry ++ ?pad))%string
        with (("  " ++ text entry) ++ pad)%string.
      apply prefix_append.
Qed.

(** X2: the builder treats the entries one after the other: the rows of a
    concatenation of two entry sequences are the rows of the first followed
    by the rows of the second, and no entry gives no row. *)
Theorem dataset_of_concatenation
    (es1 es2 : list TimeParseEntry) (scorer : Scorer) (timeout : number)
    (max_stack_depth : Z) (relative_match_len : float) (progress : bool) :
  yields (make_partial_rule_dataset (es1 ++ es2) scorer timeout
            max_stack_depth relative_match_len progress)
  = yields (make_partial_rule_dataset es1 scorer timeout max_stack_depth
              relative_match_len progress)
    ++ yields (make_partial_rule_dataset es2 scorer timeout max_stack_depth
                 relative_match_len progress)
  /\ yields (make_partial_rule_dataset [] scorer timeout max_stack_depth
               relative_match_len progress)
     = [].
Proof.
  rewrite !dataset_rows. split; [apply flat_map_app | reflexivity].
Qed.

Lemma in_rows_of (y : bool) (parse : CTParse) (row : Row) :
  In row (rows_of y parse)
  <-> exists i, 1 <= i <= List.length (production parse)
                /\ row = (map str (firstn i (production parse)), y).
Proof.
  unfold rows_of, range1. rewrite in_map_iff. split.
  - intros [i [<- Hi]]. apply in_seq in Hi. exists i. split; [lia | reflexivity].
  - intros [i [Hi ->]]. exists i. split; [reflexivity|]. apply in_seq. lia.
Qed.

Lemma in_somes (A : Type) (a : A) (l : list (option A)) :
  In a (somes l) <-> In (Some a) l.
Proof.
  induction l as [|[b|] l IH]; simpl.
  - split; intros [].
  - split.
    + intros [H|H]; [left; f_equal; exact H | right; apply IH; exact H].
    + intros [H|H]; [left; injection H as ->; reflexivity
                    | right; apply IH; exact H].
  - split.
    + intros H. right. apply IH. exact H.
    + intros [H|H]; [discriminate H | apply IH; exact H].
Qed.

(** X3: a row is in the dataset exactly when it is the stringified prefix
    of some length i, 1 <= i <= len(production), of a candidate yielded for
    one of the entries, labeled with (resolution == gold) of that candidate
    and entry.  So a feature sequence is never empty. *)
Theorem dataset_rows_are_prefixes
    (entries : list TimeParseEntry) (scorer : Scorer) (timeout : number)
    (max_stack_depth : Z) (relative_match_len : float) (progress : bool)
    (row : Row) :
  (In row (yields (make_partial_rule_dataset entries scorer timeout
                     max_stack_depth relative_match_len progress))
   <-> exists entry parse i,
         In entry entries
         /\ In (Some parse)
              (ctparse_gen (text entry) (ts entry) relative_match_len timeout
                 max_stack_depth scorer false)
         /\ 1 <= i <= List.length (production parse)
         /\ row = (map str (firstn i (production parse)),
                   Artifact_eq (resolution parse) (gold entry)))
  /\ (In row (yields (make_partial_rule_dataset entries scorer timeout
                        max_stack_depth relative_match_len progress))
      -> fst row <> []).
Proof.
  assert (Hiff :
    In row (yields (make_partial_rule_dataset entries scorer timeout
                      max_stack_depth relative_match_len progress))
    <-> exists entry parse i,
          In entry entries
          /\ In (Some parse)
               (ctparse_gen (text entry) (ts entry) relative_match_len timeout
                  max_stack_depth scorer false)
          /\ 1 <= i <= List.length (production parse)
          /\ row = (map str (firstn i (production parse)),
                    Artifact_eq (resolution parse) (gold entry))).
  { rewrite dataset_rows, in_flat_map. split.
    - intros (entry & Hentry & Hrow).
      apply in_flat_map in Hrow. destruct Hrow as ([parse|] & Hparse & Hrow);
        [|destruct Hrow].
      simpl in Hrow. rewrite yields_partial_rules in Hrow.
      apply in_rows_of in Hrow. destruct Hrow as (i & Hi & ->).
      exists entry, parse, i. repeat split; try assumption; lia.
    - intros (entry & parse & i & Hentry & Hparse & Hi & ->).
      exists entry. split; [exact Hentry|].
      apply in_flat_map. exists (Some parse). split; [exact Hparse|].
      simpl. rewrite yields_partial_rules. apply in_rows_of.
      exists i. split; [exact Hi | reflexivity]. }
  split; [exact Hiff|].
  intros Hin. apply Hiff in Hin.
  destruct Hin as (entry & parse & i & _ & _ & Hi & ->). simpl.
  intros Hnil. apply (f_equal (@List.length string)) in Hnil.
  rewrite length_map, length_firstn in Hnil. simpl in Hnil. lia.
Qed.

(** X4: the number of rows of the dataset is the sum, over the entries and
    over the candidates yielded for them that are not None, of the length
    of the candidate's production. *)
Theorem dataset_size
    (entries : list TimeParseEntry) (scorer : Scorer) (timeout : number)
    (max_stack_depth : Z) (relative_match_len : float) (progress : bool) :
  List.length
    (yields (make_partial_rule_dataset entries scorer timeout max_stack_depth
               relative_match_len progress))
  = sum_over
      (fun entry =>
         sum_over (fun parse => List.length (production parse))
           (somes (ctparse_gen (text entry) (ts entry) relative_match_len
                     timeout max_stack_depth scorer false)))
      entries.
Proof.
  rewrite dataset_rows. unfold sum_over.
  induction entries as [|e es IH]; simpl; [reflexivity|].
  rewrite length_app, IH. f_equal.
  induction (ctparse_gen (text e) (ts e) relative_match_len timeout
               max_stack_depth scorer false) as [|[p|] cs IHc]; simpl.
  - reflexivity.
  - rewrite length_app, IHc, yields_partial_rules, rows_of_length. reflexivity.
  - exact IHc.
Qed.

(** ** More on the validator *)

Lemma for_each_None
    (target : string) (ps : list CTParse) (rest : list (option CTParse))
    (l : Locals) :
  for_each (map Some ps ++ None :: rest) (one_parse target) l
  = ([], inl AssertionError).
Proof.
  rewrite for_each_app, for_each_one_parse, bind_ret_l. reflexivity.
Qed.

Lemma one_sentence_None
    (target : string) (ts : datetime) (tests : list string) (msd : Z)
    (l : Locals) (test : string) (ps : list CTParse)
    (rest : list (option CTParse)) :
  candidates ts msd test = map Some ps ++ None :: rest ->
  one_sentence target ts tests msd l test = ([], inl AssertionError).
Proof.
  intros Hc. unfold one_sentence. unfold candidates in Hc.
  rewrite Hc, for_each_None. reflexivity.
Qed.

(** A test case stops at the first sentence that raises. *)
Lemma one_case_stops
    (t : Totals) (target ts_str : string) (ts : datetime)
    (before after : list string) (test : string)
    (w : list LogRecord) (e : exn) :
  strptime ts_str "%Y-%m-%dT%H:%M" = inr ts ->
  (forall s, In s before -> answers ts 0%Z s) ->
  (forall l, one_sentence target ts (before ++ test :: after) 0%Z l test
             = (w, inl e)) ->
  one_case t (target, ts_str, before ++ test :: after)
  = (flat_map
       (fun s => if passes target ts 0%Z s then []
                 else [WarnNeverProduced target s])
       before
     ++ w,
     inl e).
Proof.
  intros Hts Hbefore Hraise.
  unfold one_case, _run_corpus_one_test. rewrite Hts.
  rewrite for_each_app.
  destruct (@for_each_one_sentence target ts (before ++ test :: after) 0%Z
              before (mkLocals true [] [] 0 0 0 0 0 false true []) Hbefore)
    as (l' & Hrun & _).
  rewrite Hrun.
  change (for_each (test :: after) ?body)
    with (fun l => bind (body l test) (for_each after body)).
  rewrite bind_log, Hraise.
  rewrite !bind_raise. reflexivity.
Qed.

(** The run stops at the first test case that raises. *)
Lemma run_corpus_stops
    (done rest : list TestCase) (c : TestCase) (w : list LogRecord) (e : exn) :
  Forall runs_through done ->
  (forall t, one_case t c = (w, inl e)) ->
  run_corpus (done ++ c :: rest) = (flat_map case_log done ++ w, inl e).
Proof.
  intros Hdone Hraise. unfold run_corpus.
  rewrite for_each_app, (for_each_one_case _ Hdone).
  change (for_each (c :: rest) one_case)
    with (fun t => bind (one_case t c) (for_each rest one_case)).
  rewrite bind_log, Hraise, !bind_raise. reflexivity.
Qed.

Lemma one_case_bad_timestamp
    (t : Totals) (target ts_str : string) (tests : list string) (e : exn) :
  strptime ts_str "%Y-%m-%dT%H:%M" = inl e ->
  one_case t (target, ts_str, tests) = ([], inl e).
Proof.
  intros Hts. unfold one_case, _run_corpus_one_test. rewrite Hts. reflexivity.
Qed.

(** X5: unlike the builder, the validator does not skip a None candidate:
    at the first sentence for which the generator yields None (after any
    number of parses), the assertion fails and the run ends with
    AssertionError; no warning is logged for that sentence, and nothing
    after it is processed. *)
Theorem run_corpus_asserts_on_None
    (done rest : list TestCase) (target ts_str : string) (ts : datetime)
    (before after : list string) (test : string)
    (ps : list CTParse) (more : list (option CTParse)) :
  Forall runs_through done ->
  strptime ts_str "%Y-%m-%dT%H:%M" = inr ts ->
  (forall s, In s before -> answers ts 0%Z s) ->
  candidates ts 0%Z test = map Some ps ++ None :: more ->
  run_corpus (done ++ (target, ts_str, before ++ test :: after) :: rest)
  = (flat_map case_log done
     ++ flat_map
          (fun s => if passes target ts 0%Z s then []
                    else [WarnNeverProduced target s])
          before,
     inl AssertionError).
Proof.
  intros Hdone Hts Hbefore Hnone.
  apply run_corpus_stops; [exact Hdone|].
  intros t.
  rewrite <- (app_nil_r (flat_map _ before)).
  eapply one_case_stops; [exact Hts | exact Hbefore |].
  intros l. eapply one_sentence_None. exact Hnone.
Qed.

(** X6: a test case whose reference time does not parse ends the run with
    the exception that strptime raises, whatever its sentences are; the
    test cases before it have been processed, those after it are not. *)
Theorem run_corpus_bad_timestamp
    (done rest : list TestCase) (target ts_str : string)
    (tests : list string) (e : exn) :
  Forall runs_through done ->
  strptime ts_str "%Y-%m-%dT%H:%M" = inl e ->
  run_corpus (done ++ (target, ts_str, tests) :: rest)
  = (flat_map case_log done, inl e).
Proof.
  intros Hdone Hts.
  rewrite <- (app_nil_r (flat_map case_log done)).
  apply run_corpus_stops; [exact Hdone|].
  intros t. apply one_case_bad_timestamp. exact Hts.
Qed.

(** *** Every way a run can end *)

Lemma candidates_cases (cs : list (option CTParse)) :
  cs = []
  \/ (exists ps, cs = map Some ps /\ ps <> [])
  \/ (exists ps rest, cs = map Some ps ++ None :: rest).
Proof.
  induction cs as [|[p|] cs IH].
  - left. reflexivity.
  - right. destruct IH as [-> | [(ps & -> & _) | (ps & rest & ->)]].
    + left. exists [p]. split; [reflexivity | discriminate].
    + left. exists (p :: ps). split; [reflexivity | discriminate].
    + right. exists (p :: ps), rest. reflexivity.
  - right. right. exists [], cs. reflexivity.
Qed.

Lemma map_Some_answers
    (ts : datetime) (msd : Z) (test : string) (ps : list CTParse) :
  candidates ts msd test = map Some ps -> ps <> [] -> answers ts msd test.
Proof.
  intros Hc Hne. unfold answers. rewrite Hc. split.
  - destruct ps; [congruence | discriminate].
  - intros Hin. apply in_map_iff in Hin. destruct Hin as (p & Hp & _).
    discriminate.
Qed.

Lemma sentence_outcome (target : string) (ts : datetime) (msd : Z) (test : string) :
  answers ts msd test
  \/ exists w e, forall tests l,
       one_sentence target ts tests msd l test = (w, inl e).
Proof.
  destruct (candidates_cases (candidates ts msd test))
    as [Hnil | [(ps & Hps & Hne) | (ps & rest & Hnone)]].
  - right. exists [WarnNeverProduced target test], (ValueError max_empty).
    intros tests l. apply one_sentence_no_candidate. exact Hnil.
  - left. eapply map_Some_answers; eassumption.
  - right. exists [], AssertionError.
    intros tests l. eapply one_sentence_None. exact Hnone.
Qed.

Lemma tests_outcome (target : string) (ts : datetime) (msd : Z) (todo : list string) :
  (forall s, In s todo -> answers ts msd s)
  \/ exists before test after w e,
       todo = before ++ test :: after
       /\ (forall s, In s before -> answers ts msd s)
       /\ forall tests l, one_sentence target ts tests msd l test = (w, inl e).
Proof.
  induction todo as [|test todo IH].
  - left. intros s [].
  - destruct (sentence_outcome target ts msd test) as [Ha | (w & e & Hraise)].
    + destruct IH as [Hall | (before & test' & after & w & e & -> & Hb & Hraise)].
      * left. intros s [<- | Hs]; [exact Ha | apply Hall; exact Hs].
      * right. exists (test :: before), test', after, w, e.
        split; [reflexivity|]. split; [|exact Hraise].
        intros s [<- | Hs]; [exact Ha | apply Hb; exact Hs].
    + right. exists [], test, todo, w, e.
      split; [reflexivity|]. split; [intros s [] | exact Hraise].
Qed.

Lemma case_outcome (c : TestCase) :
  runs_through c \/ exists w e, forall t, one_case t c = (w, inl e).
Proof.
  destruct c as [[target ts_str] tests].
  destruct (strptime ts_str "%Y-%m-%dT%H:%M") as [e|ts] eqn:Hts.
  - right. exists [], e. intros t. apply one_case_bad_timestamp. exact Hts.
  - destruct (tests_outcome target ts 0%Z tests)
      as [Hall | (before & test & after & w & e & -> & Hb & Hraise)].
    + left. exists ts. split; [exact Hts | exact Hall].
    + right. eexists. exists e. intros t.
      eapply one_case_stops; [exact Hts | exact Hb |].
      intros l. apply Hraise.
Qed.

Lemma corpus_outcome (corpus : list TestCase) :
  Forall runs_through corpus
  \/ exists done c rest w e,
       corpus = done ++ c :: rest
       /\ Forall runs_through done
       /\ forall t, one_case t c = (w, inl e).
Proof.
  induction corpus as [|c corpus IH].
  - left. constructor.
  - destruct (case_outcome c) as [Hc | (w & e & Hraise)].
    + destruct IH as [Hall | (done & c' & rest & w & e & -> & Hd & Hraise)].
      * left. constructor; assumption.
      * right. exists (c :: done), c', rest, w, e.
        split; [reflexivity|]. split; [constructor; assumption | exact Hraise].
    + right. exists [], c, corpus, w, e.
      split; [reflexivity|]. split; [constructor | exact Hraise].
Qed.

Lemma sum_over_zero (A : Type) (f : A -> nat) (l : list A) :
  sum_over f l = 0 -> forall a, In a l -> f a = 0.
Proof.
  unfold sum_over. induction l as [|b l IH]; simpl; intros H a [].
  - subst b. lia.
  - apply IH; [lia | assumption].
Qed.

(** A run in which every test case runs through but no sentence is
    evaluated divides by zero. *)
Lemma run_corpus_no_sentence (corpus : list TestCase) :
  Forall runs_through corpus ->
  sentences corpus = 0 ->
  run_corpus corpus
  = ([InfoRun 0 (List.length corpus) 0 0 0], inl ZeroDivisionError).
Proof.
  intros Hall Hzero.
  assert (Hres : forall c, In c corpus ->
                   case_log c = []
                   /\ case_result c = mkOneTest [] [] 0 0 0 0 0 false).
  { intros c Hin.
    pose proof (sum_over_zero _ _ Hzero c Hin) as Hlen.
    pose proof (proj1 (Forall_forall _ _) Hall c Hin) as Hc.
    destruct c as [[target ts_str] tests]. destruct Hc as (ts & Hts & _).
    simpl in Hlen. destruct tests; [|discriminate].
    simpl. rewrite Hts. split; reflexivity. }
  unfold run_corpus. rewrite (for_each_one_case _ Hall), bind_log.
  assert (Hlog : flat_map case_log corpus = []).
  { clear Hall Hzero. induction corpus as [|c corpus IH]; simpl; [reflexivity|].
    rewrite (proj1 (Hres c (or_introl eq_refl))), IH; [reflexivity|].
    intros c' Hc'. apply Hres. right. exact Hc'. }
  assert (Hsum : forall f : OneTest -> nat,
             f (mkOneTest [] [] 0 0 0 0 0 false) = 0 -> corpus_sum f corpus = 0).
  { intros f Hf. clear Hall Hzero Hlog. unfold corpus_sum, sum_over.
    induction corpus as [|c corpus IH]; simpl; [reflexivity|].
    rewrite (proj2 (Hres c (or_introl eq_refl))), Hf, IH; [reflexivity|].
    intros c' Hc'. apply Hres. right. exact Hc'. }
  rewrite Hlog. unfold report. simpl.
  rewrite !Hsum by reflexivity. reflexivity.
Qed.

Lemma passes_iff (target : string) (ts : datetime) (msd : Z) (test : string) :
  passes target ts msd test = true
  <-> exists p, In p (parses ts msd test)
                /\ String.eqb (nb_str (resolution p)) target = true.
Proof. unfold passes. apply existsb_exists. Qed.

Lemma covered_iff (corpus : list TestCase) :
  covered corpus = true <-> Forall every_sentence_passes corpus.
Proof.
  unfold covered. rewrite forallb_forall, Forall_forall.
  split; intros H c Hin; specialize (H c Hin);
    destruct c as [[target ts_str] tests]; unfold case_result in *;
    unfold every_sentence_passes in *;
    destruct (strptime ts_str "%Y-%m-%dT%H:%M") as [e|ts] eqn:Hts.
  - intros ts' Hts'. discriminate.
  - intros ts' Hts' test Htest. injection Hts' as <-.
    simpl in H. rewrite negb_involutive, forallb_forall in H.
    apply passes_iff. apply H. exact Htest.
  - reflexivity.
  - simpl. rewrite negb_involutive, forallb_forall.
    intros test Htest. apply passes_iff. apply (H ts eq_refl test Htest).
Qed.

(** X7: run_corpus returns a dataset exactly when every test case runs
    through (its reference time parses and the generator yields, for each
    of its sentences, at least one candidate and no None), the corpus has
    at least one sentence, and every sentence has a correct candidate; the
    dataset is then the rows and the labels of the test cases, in order. *)
Theorem run_corpus_returns_iff
    (corpus : list TestCase) (d : list (list string) * list bool) :
  snd (run_corpus corpus) = inr d
  <-> Forall runs_through corpus
      /\ sentences corpus <> 0
      /\ Forall every_sentence_passes corpus
      /\ d = (flat_map (fun c => Xs_ (case_result c)) corpus,
              flat_map (fun c => ys_ (case_result c)) corpus).
Proof.
  split.
  - intros Hret.
    destruct (corpus_outcome corpus)
      as [Hall | (done & c & rest & w & e & -> & Hd & Hraise)].
    + destruct (Nat.eq_dec (sentences corpus) 0) as [Hzero | Hsent].
      * rewrite (run_corpus_no_sentence Hall Hzero) in Hret. discriminate.
      * rewrite (run_corpus_runs_through Hall Hsent) in Hret. simpl in Hret.
        destruct (covered corpus) eqn:Hcov; [|discriminate].
        injection Hret as <-.
        repeat split; try assumption. apply covered_iff. exact Hcov.
    + rewrite (@run_corpus_stops done rest c w e Hd Hraise) in Hret.
      discriminate.
  - intros (Hall & Hsent & Hpass & ->).
    rewrite (run_corpus_runs_through Hall Hsent). simpl.
    rewrite (proj2 (covered_iff corpus) Hpass). reflexivity.
Qed.

(** X8: when every test case runs through and the corpus has a sentence,
    the run processes the whole corpus and logs the four summary records
    after the warnings of the test cases; it then returns the dataset if
    every sentence has a correct candidate, and raises the exception
    [ctparse corpus has errors] if some sentence has none. *)
Theorem run_corpus_verdict (corpus : list TestCase) :
  Forall runs_through corpus ->
  sentences corpus <> 0 ->
  fst (run_corpus corpus) = flat_map case_log corpus ++ summary corpus
  /\ ((Forall every_sentence_passes corpus
       /\ snd (run_corpus corpus)
          = inr (flat_map (fun c => Xs_ (case_result c)) corpus,
                 flat_map (fun c => ys_ (case_result c)) corpus))
      \/ (~ Forall every_sentence_passes corpus
          /\ snd (run_corpus corpus)
             = inl (Exception "ctparse corpus has errors"))).
Proof.
  intros Hall Hsent. rewrite (run_corpus_runs_through Hall Hsent). simpl.
  split; [reflexivity|].
  destruct (covered corpus) eqn:Hcov.
  - left. split; [apply covered_iff; exact Hcov | reflexivity].
  - right. split; [|reflexivity].
    intros Hpass. apply covered_iff in Hpass. congruence.
Qed.

(** *** Counters, shares and warnings *)

Lemma max_scan_in (A : Type) (key : A -> float) (x : A) (xs : list A) :
  In (max_scan key x xs) (x :: xs).
Proof.
  unfold max_scan. revert x. induction xs as [|y xs IH]; intros x.
  - left. reflexivity.
  - simpl fold_left.
    destruct (IH (if float_gtb (key y) (key x) then y else x)) as [H | H].
    + destruct (float_gtb (key y) (key x)).
      * right. left. exact H.
      * left. exact H.
    + right. right. exact H.
Qed.

Lemma max_scan_first (A : Type) (key : A -> float) (x : A) (xs : list A) :
  (forall y, In y xs -> float_gtb (key y) (key x) = false) ->
  max_scan key x xs = x.
Proof.
  unfold max_scan. induction xs as [|y xs IH]; intros H; [reflexivity|].
  simpl. rewrite (H y (or_introl eq_refl)).
  apply IH. intros z Hz. apply H. right. exact Hz.
Qed.

Lemma count_positive (A : Type) (f : A -> bool) (a : A) (l : list A) :
  In a l -> f a = true -> 1 <= count f l.
Proof.
  induction l as [|b l IH]; intros [] Hf.
  - subst b. rewrite count_cons, Hf. simpl. lia.
  - rewrite count_cons. specialize (IH H Hf). lia.
Qed.

Lemma first_correct_bounds (target : string) (ps : list CTParse) :
  first_correct target ps <= 1
  /\ first_correct target ps <= count (label target) ps.
Proof.
  destruct ps as [|p ps]; simpl; [lia|].
  rewrite count_cons. destruct (label target p); simpl; lia.
Qed.

Lemma best_correct_bounds (target : string) (ps : list CTParse) :
  best_correct target ps <= 1
  /\ best_correct target ps <= count (label target) ps.
Proof.
  unfold best_correct. destruct ps as [|p ps]; [simpl; lia|].
  change (map (fun q => (score q, label target q)) (p :: ps))
    with ((score p, label target p)
          :: map (fun q => (score q, label target q)) ps).
  cbv iota.
  pose proof (max_scan_in fst (score p, label target p)
                (map (fun q => (score q, label target q)) ps)) as Hin.
  change ((score p, label target p)
          :: map (fun q => (score q, label target q)) ps)
    with (map (fun q => (score q, label target q)) (p :: ps)) in Hin.
  apply in_map_iff in Hin. destruct Hin as (q & Hq & Hin).
  rewrite <- Hq. simpl snd.
  destruct (label target q) eqn:Hl; simpl; [|lia].
  split; [lia|]. apply (count_positive (label target) q _ Hin Hl).
Qed.

Lemma sum_over_le_length (A : Type) (f : A -> nat) (l : list A) :
  (forall a, In a l -> f a <= 1) -> sum_over f l <= List.length l.
Proof.
  intros H. rewrite <- sum_over_const_1. apply sum_over_le. exact H.
Qed.

Lemma length_prefixes (parse : CTParse) :
  List.length (prefixes parse) = List.length (production parse).
Proof. unfold prefixes, range1. rewrite length_map, length_seq. reflexivity. Qed.

Lemma length_labels (target : string) (parse : CTParse) :
  List.length (labels target parse) = List.length (production parse).
Proof. unfold labels. apply repeat_length. Qed.

Lemma length_flat_map_eq (A B C : Type) (f : A -> list B) (g : A -> list C)
    (l : list A) :
  (forall a, In a l -> List.length (f a) = List.length (g a)) ->
  List.length (flat_map f l) = List.length (flat_map g l).
Proof.
  induction l as [|a l IH]; intros H; simpl; [reflexivity|].
  rewrite !length_app, (H a (or_introl eq_refl)), IH; [reflexivity|].
  intros b Hb. apply H. right. exact Hb.
Qed.

(** What holds of the counters a test case returns, whatever the
    candidates are. *)
Lemma one_test_result_bounds
    (target : string) (ts : datetime) (tests : list string) (msd : Z) :
  let r := one_test_result target ts tests msd in
  List.length (Xs_ r) = List.length (ys_ r)
  /\ pos_parses_ r + neg_parses_ r
     = List.length (flat_map (parses ts msd) tests)
  /\ pos_first_parses_ r <= pos_parses_ r
  /\ pos_best_scored_ r <= pos_parses_ r
  /\ pos_first_parses_ r <= List.length tests
  /\ pos_best_scored_ r <= List.length tests.
Proof.
  unfold one_test_result; simpl. repeat split.
  - apply length_flat_map_eq. intros test _.
    apply length_flat_map_eq. intros p _.
    rewrite length_prefixes, length_labels. reflexivity.
  - rewrite sum_over_plus. unfold sum_over.
    induction tests as [|t tests IH]; simpl; [reflexivity|].
    rewrite length_app, count_split, IH. reflexivity.
  - apply sum_over_le. intros test _. apply first_correct_bounds.
  - apply sum_over_le. intros test _. apply best_correct_bounds.
  - apply sum_over_le_length. intros test _. apply first_correct_bounds.
  - apply sum_over_le_length. intros test _. apply best_correct_bounds.
Qed.

(** X9: for a test case that runs through, the rows and the labels
    returned have the same length, the positive and negative counts add up
    to the number of candidates yielded, and neither the first-yielded
    count nor the best-scored count exceeds the positive count or the
    number of sentences. *)
Theorem one_test_counters_are_consistent
    (target ts_str : string) (tests : list string) (msd : Z) (ts : datetime) :
  strptime ts_str "%Y-%m-%dT%H:%M" = inr ts ->
  (forall test, In test tests -> answers ts msd test) ->
  exists (log : list LogRecord) (r : OneTest),
    _run_corpus_one_test target ts_str tests msd = (log, inr r)
    /\ List.length (Xs_ r) = List.length (ys_ r)
    /\ pos_parses_ r + neg_parses_ r
       = List.length (flat_map (parses ts msd) tests)
    /\ pos_first_parses_ r <= pos_parses_ r
    /\ pos_best_scored_ r <= pos_parses_ r
    /\ pos_first_parses_ r <= List.length tests
    /\ pos_best_scored_ r <= List.length tests.
Proof.
  intros Hts Hans.
  exists (one_test_log target ts tests msd),
         (one_test_result target ts tests msd).
  split; [apply (run_corpus_one_test_answered target tests Hts Hans)|].
  apply one_test_result_bounds.
Qed.

Lemma ratio_in_unit (a b : nat) :
  b <> 0 -> a <= b -> (0 <= ratio a b /\ ratio a b <= 1)%Q.
Proof.
  intros Hb Hab. unfold ratio, Qle. simpl.
  assert (Hpos : Zpos (Pos.of_nat b) = Z.of_nat b).
  { rewrite <- positive_nat_Z, Nat2Pos.id by exact Hb. reflexivity. }
  rewrite Hpos. lia.
Qed.

Lemma case_result_bounds (c : TestCase) :
  pos_first_parses_ (case_result c) <= pos_parses_ (case_result c)
  /\ pos_best_scored_ (case_result c) <= List.length (snd c).
Proof.
  destruct c as [[target ts_str] tests]. unfold case_result.
  destruct (strptime ts_str "%Y-%m-%dT%H:%M") as [e|ts];
    [split; [apply Nat.le_refl | apply Nat.le_0_l]|].
  destruct (one_test_result_bounds target ts tests 0%Z)
    as (_ & _ & Hfirst & _ & _ & Hbest).
  split; [exact Hfirst | exact Hbest].
Qed.

Lemma case_log_warnings (c : TestCase) (r : LogRecord) :
  In r (case_log c) ->
  match r with
  | WarnNeverProduced _ _ | WarnNotAlways _ => True
  | _ => False
  end.
Proof.
  destruct c as [[target ts_str] tests]. unfold case_log.
  destruct (strptime ts_str "%Y-%m-%dT%H:%M") as [e|ts]; [intros []|].
  unfold one_test_log. rewrite in_app_iff, in_flat_map.
  intros [(test & _ & Hin) | Hin].
  - destruct (passes target ts 0 test); [destruct Hin|].
    destruct Hin as [<- | []]. exact I.
  - destruct (forallb (passes target ts 0) tests); [destruct Hin|].
    destruct Hin as [<- | []]. exact I.
Qed.

(** X10: in a run that reaches the summary, each of the three shares
    logged is between 0 and 1. *)
Theorem logged_shares_are_between_0_and_1 (corpus : list TestCase) (q : Q) :
  Forall runs_through corpus ->
  sentences corpus <> 0 ->
  In (InfoShareCorrect q) (fst (run_corpus corpus))
  \/ In (InfoShareFirst q) (fst (run_corpus corpus))
  \/ In (InfoShareBest q) (fst (run_corpus corpus)) ->
  (0 <= q /\ q <= 1)%Q.
Proof.
  intros Hall Hsent Hin.
  destruct (corpus_counts_sentences Hall) as [Htot Hpn].
  assert (Hfirst : corpus_sum pos_first_parses_ corpus
                   <= corpus_sum pos_parses_ corpus).
  { apply sum_over_le. intros c _. apply case_result_bounds. }
  assert (Hbest : corpus_sum pos_best_scored_ corpus <= sentences corpus).
  { apply sum_over_le. intros c _. apply case_result_bounds. }
  rewrite (run_corpus_runs_through Hall Hsent) in Hin. simpl fst in Hin.
  assert (Hcases : forall r, In r (flat_map case_log corpus) ->
             match r with
             | WarnNeverProduced _ _ | WarnNotAlways _ => True
             | _ => False
             end).
  { intros r Hr. apply in_flat_map in Hr. destruct Hr as (c & _ & Hr).
    exact (case_log_warnings c r Hr). }
  unfold summary in Hin.
  destruct Hin as [Hin | [Hin | Hin]]; apply in_app_iff in Hin;
    (destruct Hin as [Hin | Hin]; [destruct (Hcases _ Hin)|]);
    simpl in Hin;
    destruct Hin as [Heq | [Heq | [Heq | [Heq | []]]]];
    try discriminate Heq; injection Heq as <-;
    apply ratio_in_unit; lia.
Qed.

Lemma combine_app_same (A B : Type) (a b : list A) (a' b' : list B) :
  List.length a = List.length a' ->
  combine (a ++ b) (a' ++ b') = combine a a' ++ combine b b'.
Proof.
  revert a'. induction a as [|x a IH]; intros [|x' a'] H; simpl in *;
    try discriminate; [reflexivity|].
  f_equal. apply IH. lia.
Qed.

Lemma combine_flat_map (A B C : Type) (f : A -> list B) (g : A -> list C)
    (l : list A) :
  (forall a, In a l -> List.length (f a) = List.length (g a)) ->
  combine (flat_map f l) (flat_map g l)
  = flat_map (fun a => combine (f a) (g a)) l.
Proof.
  induction l as [|a l IH]; intros H; simpl; [reflexivity|].
  rewrite combine_app_same by (apply H; left; reflexivity).
  rewrite IH; [reflexivity|]. intros b Hb. apply H. right. exact Hb.
Qed.

Lemma flat_map_of_map (A B C : Type) (f : B -> list C) (g : A -> B) (l : list A) :
  flat_map f (map g l) = flat_map (fun a => f (g a)) l.
Proof.
  induction l as [|a l IH]; simpl; [reflexivity | rewrite IH; reflexivity].
Qed.

Lemma flat_map_agree (A B : Type) (f g : A -> list B) (l : list A) :
  (forall a, In a l -> f a = g a) -> flat_map f l = flat_map g l.
Proof.
  induction l as [|a l IH]; intros H; simpl; [reflexivity|].
  rewrite (H a (or_introl eq_refl)), IH; [reflexivity|].
  intros b Hb. apply H. right. exact Hb.
Qed.

Lemma combine_prefixes_labels (target : string) (parse : CTParse) :
  combine (prefixes parse) (labels target parse)
  = rows_of (label target parse) parse.
Proof.
  unfold prefixes, labels, rows_of, range1.
  assert (G : forall (f : nat -> list string) (y : bool) (l : list nat),
             combine (map f l) (repeat y (List.length l))
             = map (fun i => (f i, y)) l).
  { intros f y l. induction l as [|i l IH]; simpl;
      [reflexivity | f_equal; exact IH]. }
  specialize (G (fun i => map str (firstn i (production parse)))
                (label target parse)
                (seq 1 (List.length (production parse)))).
  rewrite length_seq in G. exact G.
Qed.

(** X11: for a test case that runs through, the rows the validator returns,
    paired with their labels, are the rows the dataset builder yields for
    the same sentences at the same reference time (with the dummy scorer,
    no timeout and relative match length 1.0), provided the gold value is
    one that the candidates equal exactly when their canonical text is the
    target. *)
Theorem validator_rows_are_builder_rows
    (target ts_str : string) (tests : list string) (msd : Z) (ts : datetime)
    (gold_value : Artifact) (progress : bool) :
  strptime ts_str "%Y-%m-%dT%H:%M" = inr ts ->
  (forall test, In test tests -> answers ts msd test) ->
  (forall test p,
     In test tests -> In p (parses ts msd test) ->
     Artifact_eq (resolution p) gold_value
     = String.eqb (nb_str (resolution p)) target) ->
  exists (log : list LogRecord) (r : OneTest),
    _run_corpus_one_test target ts_str tests msd = (log, inr r)
    /\ combine (Xs_ r) (ys_ r)
       = yields
           (make_partial_rule_dataset
              (map (fun test => mkTimeParseEntry test ts gold_value) tests)
              DummyScorer (Int 0) msd float_1_0 progress).
Proof.
  intros Hts Hans Heq.
  exists (one_test_log target ts tests msd),
         (one_test_result target ts tests msd).
  split; [apply (run_corpus_one_test_answered target tests Hts Hans)|].
  rewrite dataset_rows. unfold one_test_result; simpl.
  rewrite combine_flat_map.
  2:{ intros test _. apply length_flat_map_eq. intros p _.
      rewrite length_prefixes, length_labels. reflexivity. }
  rewrite flat_map_of_map.
  apply flat_map_agree. intros test Htest. simpl.
  destruct (answers_parses (Hans test Htest)) as [Hc _].
  fold (candidates ts msd test). rewrite Hc.
  rewrite combine_flat_map.
  2:{ intros p _. rewrite length_prefixes, length_labels. reflexivity. }
  rewrite flat_map_of_map.
  apply flat_map_agree. intros p Hp. simpl.
  rewrite yields_partial_rules, combine_prefixes_labels.
  rewrite (Heq test p Htest Hp). reflexivity.
Qed.

Lemma forallb_false_iff (A : Type) (f : A -> bool) (l : list A) :
  forallb f l = false <-> exists a, In a l /\ f a = false.
Proof.
  split.
  - induction l as [|a l IH]; simpl; [discriminate|].
    destruct (f a) eqn:Ha; simpl.
    + intros Hf. destruct (IH Hf) as (b & Hb & Hfb).
      exists b. split; [right; exact Hb | exact Hfb].
    + intros _. exists a. split; [left; reflexivity | exact Ha].
  - intros (a & Ha & Hfa).
    destruct (forallb f l) eqn:Hf; [|reflexivity].
    rewrite forallb_forall in Hf. rewrite (Hf a Ha) in Hfa. discriminate.
Qed.

(** X12: for a test case that runs through, the log holds a
    never-produced warning for exactly the sentences without a correct
    candidate, and the not-always-produced warning exactly when there is
    such a sentence; both name the target of the test case. *)
Theorem warnings_name_the_failing_sentences
    (target ts_str : string) (tests : list string) (msd : Z) (ts : datetime) :
  strptime ts_str "%Y-%m-%dT%H:%M" = inr ts ->
  (forall test, In test tests -> answers ts msd test) ->
  let log := fst (_run_corpus_one_test target ts_str tests msd) in
  (forall t s,
     In (WarnNeverProduced t s) log
     <-> t = target /\ In s tests /\ passes target ts msd s = false)
  /\ (forall t,
        In (WarnNotAlways t) log
        <-> t = target
            /\ exists s, In s tests /\ passes target ts msd s = false).
Proof.
  intros Hts Hans log. unfold log.
  rewrite (run_corpus_one_test_answered target tests Hts Hans). simpl fst.
  unfold one_test_log.
  assert (Hflat : forall r,
            In r (flat_map
                    (fun test => if passes target ts msd test then []
                                 else [WarnNeverProduced target test])
                    tests)
            <-> exists s, In s tests /\ passes target ts msd s = false
                          /\ r = WarnNeverProduced target s).
  { intros r. rewrite in_flat_map. split.
    - intros (s & Hs & Hin). exists s.
      destruct (passes target ts msd s); [destruct Hin|].
      destruct Hin as [<- | []]. auto.
    - intros (s & Hs & Hp & ->). exists s. split; [exact Hs|].
      rewrite Hp. left. reflexivity. }
  pose proof (forallb_false_iff (passes target ts msd) tests) as Hall.
  split.
  - intros t s. rewrite in_app_iff, Hflat. split.
    + intros [(s' & Hs' & Hp & Heq) | Hin].
      * injection Heq as -> ->. auto.
      * destruct (forallb (passes target ts msd) tests); [destruct Hin|].
        destruct Hin as [Heq | []]. discriminate.
    + intros (-> & Hs & Hp). left. exists s. auto.
  - intros t. rewrite in_app_iff, Hflat. split.
    + intros [(s' & _ & _ & Heq) | Hin]; [discriminate|].
      destruct (forallb (passes target ts msd) tests) eqn:Hf; [destruct Hin|].
      destruct Hin as [Heq | []]. injection Heq as <-.
      split; [reflexivity | apply Hall; reflexivity].
    + intros (-> & Hex). right.
      rewrite (proj2 Hall Hex). left. reflexivity.
Qed.

(** X13: when, within each sentence, no candidate's score is greater than
    another's (as with a scorer that gives every candidate the same score),
    the best-scored candidate is the first one yielded, so the best-scored
    count of a test case that runs through equals its first-yielded
    count. *)
Theorem equal_scores_make_best_the_first
    (target ts_str : string) (tests : list string) (msd : Z) (ts : datetime) :
  strptime ts_str "%Y-%m-%dT%H:%M" = inr ts ->
  (forall test, In test tests -> answers ts msd test) ->
  (forall test p q,
     In test tests -> In p (parses ts msd test) -> In q (parses ts msd test) ->
     float_gtb (score q) (score p) = false) ->
  exists (log : list LogRecord) (r : OneTest),
    _run_corpus_one_test target ts_str tests msd = (log, inr r)
    /\ pos_best_scored_ r = pos_first_parses_ r.
Proof.
  intros Hts Hans Hflat.
  exists (one_test_log target ts tests msd),
         (one_test_result target ts tests msd).
  split; [apply (run_corpus_one_test_answered target tests Hts Hans)|].
  unfold one_test_result; simpl. unfold sum_over. f_equal.
  apply map_ext_in. intros test Htest.
  specialize (Hflat test).
  unfold best_correct, first_correct.
  destruct (parses ts msd test) as [|p ps]; [reflexivity|].
  simpl map. cbv iota.
  rewrite max_scan_first; [reflexivity|].
  intros y Hy. apply in_map_iff in Hy. destruct Hy as (q & <- & Hq).
  simpl. apply (Hflat p q Htest); [left; reflexivity | right; exact Hq].
Qed.

(** ** More on the gold-value parser *)

Lemma list_ascii_app (a b : string) :
  list_ascii_of_string (a ++ b)
  = list_ascii_of_string a ++ list_ascii_of_string b.
Proof. induction a as [|c a IH]; simpl; [reflexivity | f_equal; exact IH]. Qed.

Lemma list_ascii_length (a : string) :
  List.length (list_ascii_of_string a) = String.length a.
Proof. induction a as [|c a IH]; simpl; [reflexivity | f_equal; exact IH]. Qed.

Lemma firstn_length_app (A : Type) (a b : list A) :
  firstn (List.length a) (a ++ b) = a.
Proof. induction a as [|x a IH]; simpl; [reflexivity | f_equal; exact IH]. Qed.

Lemma skipn_length_app (A : Type) (a b : list A) :
  skipn (List.length a) (a ++ b) = b.
Proof. induction a as [|x a IH]; simpl; [reflexivity | exact IH]. Qed.

(** The slice drops a header of [start] characters and the last
    character. *)
Lemma slice_to_last_body (start : nat) (header body : string) (c : ascii) :
  String.length header = start ->
  slice_to_last start (header ++ body ++ String c "") = body.
Proof.
  intros <-. unfold slice_to_last.
  rewrite !list_ascii_app. simpl (list_ascii_of_string (String c "")).
  rewrite !length_app, <- list_ascii_length. simpl List.length.
  replace (List.length (list_ascii_of_string header)
           + (List.length (list_ascii_of_string body) + 1) - 1)
    with (List.length (list_ascii_of_string header ++ list_ascii_of_string body))
    by (rewrite length_app; lia).
  rewrite app_assoc, firstn_length_app, skipn_length_app.
  apply string_of_list_ascii_of_string.
Qed.

(** On a string of at most [start + 1] characters the slice is empty. *)
Lemma slice_to_last_short (start : nat) (s : string) :
  String.length s <= start + 1 -> slice_to_last start s = "".
Proof.
  intros Hlen. unfold slice_to_last.
  rewrite skipn_all2; [reflexivity|].
  rewrite length_firstn, list_ascii_length. lia.
Qed.

(** X14: on the canonical text of a value, that is the type name, the
    seven or eleven characters up to the opening brace, a body and one
    closing character, parse_nb_string hands exactly the body to the
    from_str of the type. *)
Theorem parse_nb_string_reads_the_body (body : string) (c : ascii) :
  parse_nb_string ("Time[]{" ++ body ++ String c "")
  = on_ok NbTime (Time_from_str body)
  /\ parse_nb_string ("Interval[]{" ++ body ++ String c "")
     = on_ok NbInterval (Interval_from_str body)
  /\ parse_nb_string ("Duration[]{" ++ body ++ String c "")
     = on_ok NbDuration (Duration_from_str body).
Proof.
  unfold parse_nb_string. split; [|split].
  - replace (String.prefix "Time" ("Time[]{" ++ body ++ String c "")) with true
      by reflexivity.
    rewrite (@slice_to_last_body 7 "Time[]{" body c eq_refl). reflexivity.
  - replace (String.prefix "Time" ("Interval[]{" ++ body ++ String c ""))
      with false by reflexivity.
    replace (String.prefix "Interval" ("Interval[]{" ++ body ++ String c ""))
      with true by reflexivity.
    rewrite (@slice_to_last_body 11 "Interval[]{" body c eq_refl). reflexivity.
  - replace (String.prefix "Time" ("Duration[]{" ++ body ++ String c ""))
      with false by reflexivity.
    replace (String.prefix "Interval" ("Duration[]{" ++ body ++ String c ""))
      with false by reflexivity.
    replace (String.prefix "Duration" ("Duration[]{" ++ body ++ String c ""))
      with true by reflexivity.
    rewrite (@slice_to_last_body 11 "Duration[]{" body c eq_refl). reflexivity.
Qed.

(** X15: a string that starts with a type name but is too short to hold a
    body (at most 8 characters for Time, at most 12 for Interval and
    Duration) is not an error of parse_nb_string itself: the from_str of
    the type is called on the empty string. *)
Theorem parse_nb_string_short_input (gold_parse : string) :
  (String.prefix "Time" gold_parse = true ->
   String.length gold_parse <= 8 ->
   parse_nb_string gold_parse = on_ok NbTime (Time_from_str ""))
  /\ (String.prefix "Interval" gold_parse = true ->
      String.length gold_parse <= 12 ->
      parse_nb_string gold_parse = on_ok NbInterval (Interval_from_str ""))
  /\ (String.prefix "Duration" gold_parse = true ->
      String.length gold_parse <= 12 ->
      parse_nb_string gold_parse = on_ok NbDuration (Duration_from_str "")).
Proof.
  unfold parse_nb_string. split; [|split]; intros Hp Hlen.
  - rewrite Hp, (@slice_to_last_short 7) by exact Hlen. reflexivity.
  - destruct (prefix_first _ _ _ Hp) as [s' ->].
    rewrite Hp, (@slice_to_last_short 11) by exact Hlen. reflexivity.
  - destruct (prefix_first _ _ _ Hp) as [s' ->].
    rewrite Hp, (@slice_to_last_short 11) by exact Hlen. reflexivity.
Qed.

(** X16: the kind of value parse_nb_string returns is the one its input
    names: a Time only for a string that starts with Time, an Interval
    only for one that starts with Interval, a Duration only for one that
    starts with Duration. *)
Theorem parse_nb_string_kind (gold_parse : string) (v : NbValue) :
  parse_nb_string gold_parse = inr v ->
  match v with
  | NbTime _ => String.prefix "Time" gold_parse = true
  | NbInterval _ => String.prefix "Interval" gold_parse = true
  | NbDuration _ => String.prefix "Duration" gold_parse = true
  end.
Proof.
  unfold parse_nb_string, on_ok.
  destruct (String.prefix "Time" gold_parse).
  - destruct (Time_from_str _); intros H; [discriminate|].
    injection H as <-. reflexivity.
  - destruct (String.prefix "Interval" gold_parse).
    + destruct (Interval_from_str _); intros H; [discriminate|].
      injection H as <-. reflexivity.
    + destruct (String.prefix "Duration" gold_parse).
      * destruct (Duration_from_str _); intros H; [discriminate|].
        injection H as <-. reflexivity.
      * discriminate.
Qed.

(** ** The corpus loader *)

Lemma load_entry_iff (e : json_object) (t : TimeParseEntry) :
  load_entry e = inr t <-> loads e t.
Proof.
  unfold load_entry, loads. split.
  - destruct (e "text") as [text_|]; [|discriminate].
    destruct (e "ref_time") as [ref_time|]; [|discriminate].
    destruct (strptime ref_time "%Y-%m-%dT%H:%M:%S") as [x|ts_] eqn:Hts;
      [discriminate|].
    destruct (e "gold_parse") as [gold_parse|]; [|discriminate].
    destruct (parse_nb_string gold_parse) as [x|v] eqn:Hgold; [discriminate|].
    intros H. injection H as <-. simpl.
    split; [reflexivity|]. split.
    + exists ref_time. split; [reflexivity | exact Hts].
    + exists gold_parse, v. repeat split. exact Hgold.
  - intros (Htext & (ref_time & Href & Hts) & (gold_parse & v & Hg & Hv & Hgold)).
    rewrite Htext, Href, Hts, Hg, Hv, <- Hgold. destruct t; reflexivity.
Qed.

Lemma load_entries_iff (objs : list json_object) (loaded : list TimeParseEntry) :
  load_entries objs = inr loaded <-> Forall2 loads objs loaded.
Proof.
  revert loaded. induction objs as [|e objs IH]; intros loaded; simpl.
  - split.
    + intros H. injection H as <-. constructor.
    + intros H. inversion H. reflexivity.
  - split.
    + destruct (load_entry e) as [x|t] eqn:He; [discriminate|].
      destruct (load_entries objs) as [x|ts_] eqn:Hrest; [discriminate|].
      intros H. injection H as <-.
      constructor; [apply load_entry_iff; exact He | apply IH; reflexivity].
    + intros H. inversion H as [|e' t objs' ts_ Ht Hrest]; subst.
      rewrite (proj2 (load_entry_iff e t) Ht).
      rewrite (proj2 (IH ts_) Hrest). reflexivity.
Qed.

(** X17: load_timeparse_corpus returns a list of entries exactly when the
    file decodes to a list of objects each of which has the three fields,
    a reference time that parses and a gold parse that parse_nb_string
    accepts; the entries are then in the order of the objects, one per
    object, with the object's text, parsed time and parsed gold value. *)
Theorem load_timeparse_corpus_returns_iff
    (fname : string) (loaded : list TimeParseEntry) :
  load_timeparse_corpus fname = inr loaded
  <-> exists objs,
        json_load_file fname = inr objs
        /\ Forall2 loads objs loaded.
Proof.
  unfold load_timeparse_corpus. split.
  - destruct (json_load_file fname) as [x|objs]; [discriminate|].
    intros H. exists objs. split; [reflexivity|].
    apply load_entries_iff. exact H.
  - intros (objs & -> & H). apply load_entries_iff. exact H.
Qed.

Lemma load_entries_first_error
    (good : list json_object) (bad : json_object) (rest : list json_object)
    (loaded : list TimeParseEntry) (x : load_exn) :
  Forall2 loads good loaded ->
  load_entry bad = inl x ->
  load_entries (good ++ bad :: rest) = inl x.
Proof.
  intros Hgood Hbad. induction Hgood as [|e t good loaded He _ IH]; simpl.
  - rewrite Hbad. reflexivity.
  - rewrite (proj2 (load_entry_iff e t) He), IH. reflexivity.
Qed.

(** X18: the loader stops at the first object that does not load: when the
    objects before it load and it raises, load_timeparse_corpus raises that
    exception, whatever the objects after it are, and returns no entry. *)
Theorem load_timeparse_corpus_first_error
    (fname : string) (good : list json_object) (bad : json_object)
    (rest : list json_object) (loaded : list TimeParseEntry) (x : load_exn) :
  json_load_file fname = inr (good ++ bad :: rest) ->
  Forall2 loads good loaded ->
  load_entry bad = inl x ->
  load_timeparse_corpus fname = inl x.
Proof.
  intros Hfile Hgood Hbad. unfold load_timeparse_corpus. rewrite Hfile.
  eapply load_entries_first_error; eassumption.
Qed.

(** An object is checked field by field, in the order text, ref_time,
    gold_parse. *)
Lemma load_entry_errors (e : json_object) :
  (e "text" = None -> load_entry e = inl (KeyError "text"))
  /\ (forall text_,
        e "text" = Some text_ -> e "ref_time" = None ->
        load_entry e = inl (KeyError "ref_time"))
  /\ (forall text_ ref_time x,
        e "text" = Some text_ -> e "ref_time" = Some ref_time ->
        strptime ref_time "%Y-%m-%dT%H:%M:%S" = inl x ->
        load_entry e = inl (Raised x))
  /\ (forall text_ ref_time ts_,
        e "text" = Some text_ -> e "ref_time" = Some ref_time ->
        strptime ref_time "%Y-%m-%dT%H:%M:%S" = inr ts_ ->
        e "gold_parse" = None ->
        load_entry e = inl (KeyError "gold_parse"))
  /\ (forall text_ ref_time ts_ gold_parse,
        e "text" = Some text_ -> e "ref_time" = Some ref_time ->
        strptime ref_time "%Y-%m-%dT%H:%M:%S" = inr ts_ ->
        e "gold_parse" = Some gold_parse ->
        String.prefix "Time" gold_parse = false ->
        String.prefix "Interval" gold_parse = false ->
        String.prefix "Duration" gold_parse = false ->
        load_entry e
        = inl (Raised (ValueError
                         ("'" ++ gold_parse ++ "' has an invalid format")%string))).
Proof.
  unfold load_entry. repeat split.
  - intros ->. reflexivity.
  - intros text_ -> ->. reflexivity.
  - intros text_ ref_time x -> -> ->. reflexivity.
  - intros text_ ref_time ts_ -> -> -> ->. reflexivity.
  - intros text_ ref_time ts_ gold_parse -> -> -> -> H1 H2 H3.
    unfold parse_nb_string. rewrite H1, H2, H3. reflexivity.
Qed.

(** X19: a format error in a gold parse surfaces from the loader: when the
    first object that does not load has a text and a reference time that
    parses, and a gold parse that starts with none of Time, Interval and
    Duration, load_timeparse_corpus raises the ValueError of
    parse_nb_string, with the offending text in its message. *)
Theorem load_timeparse_corpus_format_error
    (fname : string) (good : list json_object) (bad : json_object)
    (rest : list json_object) (loaded : list TimeParseEntry)
    (text_ ref_time gold_parse : string) (ts_ : datetime) :
  json_load_file fname = inr (good ++ bad :: rest) ->
  Forall2 loads good loaded ->
  bad "text" = Some text_ ->
  bad "ref_time" = Some ref_time ->
  strptime ref_time "%Y-%m-%dT%H:%M:%S" = inr ts_ ->
  bad "gold_parse" = Some gold_parse ->
  String.prefix "Time" gold_parse = false ->
  String.prefix "Interval" gold_parse = false ->
  String.prefix "Duration" gold_parse = false ->
  load_timeparse_corpus fname
  = inl (Raised (ValueError
                   ("'" ++ gold_parse ++ "' has an invalid format")%string)).
Proof.
  intros Hfile Hgood Ht Hr Hts Hg H1 H2 H3.
  unfold load_timeparse_corpus. rewrite Hfile.
  eapply load_entries_first_error; [exact Hgood|].
  eapply (proj2 (proj2 (proj2 (proj2 (load_entry_errors bad)))));
    eassumption.
Qed.


End Corpus.

(** * Concrete scenarios

    An instance of the external collaborators on which the definitions
    above compute: timestamps and values are their own text, a score is a
    rational, and the generator knows two sentences. *)

Module Scenario.

Definition datetime : Type := string.

(** Accepts the 16 characters of [YYYY-MM-DDTHH:MM]. *)
Definition strptime (value format : string) : exn + datetime :=
  if String.length value =? 16 then inr value
  else inl (ValueError "time data does not match format").

Definition max_empty : string := "max() arg is an empty sequence".

Definition float_gtb (a b : Q) : bool := negb (Qle_bool a b).

Definition Artifact : Type := string.
Definition nb_str (a : Artifact) : string := a.
Definition from_str (s : string) : exn + string := inr s.
Definition str (p : string) : string := p.

Definition target : string := "Time(2023-01-02T15:00:00)".

(** A correct candidate with a 2-step derivation, scored 0.4. *)
Definition good : CTParse Q Artifact string :=
  mkCTParse target ["R(tomorrow)"; "R(at 3pm)"] (4 # 10).

(** A wrong candidate, scored 0.9. *)
Definition bad : CTParse Q Artifact string :=
  mkCTParse "Time(2023-01-02T03:00:00)" ["R(tomorrow)"; "R(at 3)"; "am"] (9 # 10).

(** A correct candidate with a 1-step derivation. *)
Definition plain : CTParse Q Artifact string :=
  mkCTParse target ["R(tomorrow 15:00)"] (1 # 1).

Definition gen
    (text : string) (ts : datetime) (relative_match_len : Q)
    (timeout : number Q) (max_stack_depth : Z) (scorer : unit)
    (latent_time : bool)
  : list (option (CTParse Q Artifact string)) :=
  if String.eqb text "tomorrow at 3pm" then [Some good; Some bad]
  else if String.eqb text "tomorrow 15:00" then [Some plain]
  else [].

(** A generator that yields no candidate at all. *)
Definition silent
    (text : string) (ts : datetime) (relative_match_len : Q)
    (timeout : number Q) (max_stack_depth : Z) (scorer : unit)
    (latent_time : bool)
  : list (option (CTParse Q Artifact string)) :=
  [].

Definition entry : TimeParseEntry datetime Artifact :=
  mkTimeParseEntry "tomorrow at 3pm" "2023-01-01T00:00:00" target.

Definition dataset (ctparse_gen : _) (entries : list (TimeParseEntry datetime Artifact))
    (progress : bool) : list (Step Display Row) :=
  make_partial_rule_dataset String.eqb str ctparse_gen entries tt
    (Int Q 0) 0%Z (1 # 1) progress.

Definition run (ctparse_gen : _) (corpus : list TestCase)
  : M (list (list string) * list bool) :=
  run_corpus strptime max_empty (1 # 1) float_gtb nb_str str tt ctparse_gen corpus.

Definition one_test (ctparse_gen : _) (target ts_str : string)
    (tests : list string) : M OneTest :=
  _run_corpus_one_test strptime max_empty (1 # 1) float_gtb nb_str str tt
    ctparse_gen
    target ts_str tests 0%Z.

Definition case_3pm : TestCase :=
  (target, "2023-01-01T00:00", ["tomorrow at 3pm"]).

Definition case_two_sentences : TestCase :=
  (target, "2023-01-01T00:00", ["tomorrow at 3pm"; "tomorrow 15:00"]).

Definition case_unknown : TestCase :=
  (target, "2023-01-01T00:00",
   ["tomorrow 15:00"; "on the morrow at three"; "tomorrow at 3pm"]).

(** A generator that yields None between two parses of one sentence. *)
Definition gen_with_None
    (text : string) (ts : datetime) (relative_match_len : Q)
    (timeout : number Q) (max_stack_depth : Z) (scorer : unit)
    (latent_time : bool)
  : list (option (CTParse Q Artifact string)) :=
  if String.eqb text "tomorrow at 3pm" then [Some good; None; Some bad]
  else if String.eqb text "tomorrow 15:00" then [Some plain]
  else [].

(** A generator whose candidates all have the score 0. *)
Definition gen_flat
    (text : string) (ts : datetime) (relative_match_len : Q)
    (timeout : number Q) (max_stack_depth : Z) (scorer : unit)
    (latent_time : bool)
  : list (option (CTParse Q Artifact string)) :=
  if String.eqb text "tomorrow at 3pm"
  then [ Some (mkCTParse (resolution bad) (production bad) (0 # 1));
         Some (mkCTParse (resolution good) (production good) (0 # 1)) ]
  else [].

Definition case_15 : TestCase :=
  (target, "2023-01-01T00:00", ["tomorrow 15:00"]).

Definition case_15_then_3pm : TestCase :=
  (target, "2023-01-01T00:00", ["tomorrow 15:00"; "tomorrow at 3pm"]).

Definition case_bad_timestamp : TestCase :=
  (target, "yesterday", ["tomorrow at 3pm"]).

(** A value of [ctparse.types] as the [Artifact] it is. *)
Definition Artifact_of_Time (t : string) : Artifact := ("Time(" ++ t ++ ")")%string.
Definition Artifact_of_Interval (i : string) : Artifact :=
  ("Interval(" ++ i ++ ")")%string.
Definition Artifact_of_Duration (d : string) : Artifact :=
  ("Duration(" ++ d ++ ")")%string.

(** Accepts the 19 characters of [YYYY-MM-DDTHH:MM:SS]. *)
Definition strptime_seconds (value format : string) : exn + datetime :=
  if String.length value =? 19 then inr value
  else inl (ValueError "time data does not match format").

(** Three objects of a corpus file: two that load, and one whose gold parse
    is not in the no-bound format. *)
Definition object_3pm : json_object :=
  fun key =>
    if String.eqb key "text" then Some "tomorrow at 3pm"
    else if String.eqb key "ref_time" then Some "2023-01-01T00:00:00"
    else if String.eqb key "gold_parse" then Some "Time[]{2023-01-02T15:00:00}"
    else None.

Definition object_3_days : json_object :=
  fun key =>
    if String.eqb key "text" then Some "for three days"
    else if String.eqb key "ref_time" then Some "2023-01-01T00:00:00"
    else if String.eqb key "gold_parse" then Some "Duration[]{3 days}"
    else None.

Definition object_old_format : json_object :=
  fun key =>
    if String.eqb key "text" then Some "tomorrow at 3pm"
    else if String.eqb key "ref_time" then Some "2023-01-01T00:00:00"
    else if String.eqb key "gold_parse" then Some "2023-01-02T15:00:00"
    else None.

(** A file system with two corpus files. *)
Definition json_load_file (fname : string) : string + list json_object :=
  if String.eqb fname "corpus.json" then inr [object_3pm; object_3_days]
  else if String.eqb fname "old.json"
       then inr ([object_3pm] ++ object_old_format :: [object_3_days])
  else inl "No such file or directory".

Definition load (fname : string)
  : load_exn string + list (TimeParseEntry datetime Artifact) :=
  load_timeparse_corpus strptime_seconds from_str from_str from_str
    json_load_file Artifact_of_Time Artifact_of_Interval Artifact_of_Duration
    fname.

End Scenario.

Import Scenario.

Example slice_Time : slice_to_last 7 "Time[]{2023-01-02T15:00:00}" = "2023-01-02T15:00:00".
Proof. reflexivity. Qed.

Example dataset_scenario :
  yields (dataset gen [entry] true)
  = [ (["R(tomorrow)"], true);
      (["R(tomorrow)"; "R(at 3pm)"], true);
      (["R(tomorrow)"], false);
      (["R(tomorrow)"; "R(at 3)"], false);
      (["R(tomorrow)"; "R(at 3)"; "am"], false) ].
Proof. reflexivity. Qed.

Example dataset_scenario_shown :
  shown (dataset gen [entry] true)
  = [ TqdmNew 1;
      SetDescription
        "  tomorrow at 3pm                                                       " ].
Proof. reflexivity. Qed.

Example run_scenario :
  run gen [case_3pm]
  = ([ InfoRun 1 1 1 1 2;
       InfoShareCorrect (1 # 2);
       InfoShareFirst (1 # 2);
       InfoShareBest (0 # 1) ],
     inr ([ ["R(tomorrow)"];
            ["R(tomorrow)"; "R(at 3pm)"];
            ["R(tomorrow)"];
            ["R(tomorrow)"; "R(at 3)"];
            ["R(tomorrow)"; "R(at 3)"; "am"] ],
          [true; true; false; false; false])).
Proof. reflexivity. Qed.

(** ** The claims on the scenarios *)

Lemma gen_answers (text : string) :
  text = "tomorrow at 3pm" \/ text = "tomorrow 15:00" ->
  answers (1 # 1) tt gen "2023-01-01T00:00" 0%Z text.
Proof.
  intros [-> | ->]; (split; [discriminate|]); simpl.
  - intros [H|[H|[]]]; discriminate.
  - intros [H|[]]; discriminate.
Qed.

Lemma case_3pm_runs_through :
  runs_through strptime (1 # 1) tt gen case_3pm.
Proof.
  exists "2023-01-01T00:00". split; [reflexivity|].
  intros test [<-|[]]. apply gen_answers. left. reflexivity.
Qed.

(** C1 on the scenario of the specification: one entry, a matching
    candidate with a 2-step derivation, then a wrong candidate. *)
Lemma partial_rule_rows_scenario :
  exists rows : list Row,
    yields (dataset gen ([] ++ entry :: []) false)
    = yields (dataset gen [] false)
      ++ flat_map (fun c => yields (dataset_of_parse String.eqb str entry c))
           (@nil (option (CTParse Q Artifact string)))
      ++ rows
      ++ flat_map (fun c => yields (dataset_of_parse String.eqb str entry c))
           [Some bad]
      ++ yields (dataset gen [] false)
    /\ List.length rows = 2
    /\ (forall i, 1 <= i <= 2 ->
          exists X, nth_error rows (i - 1) = Some (X, true)
                    /\ X = map str (firstn i (production good))
                    /\ List.length X = i)
    /\ (forall row, In row rows -> snd row = true).
Proof.
  apply (@partial_rule_rows_per_candidate datetime Q Artifact String.eqb
           string str unit gen tt (Int Q 0) 0%Z (1 # 1) false
           [] entry [] [] good [Some bad]).
  - reflexivity.
  - discriminate.
Defined.

(** C9 on the scenario: the wrong candidate gives three rows labeled
    false. *)
Lemma mismatch_scenario :
  yields (dataset_of_parse String.eqb str entry (Some bad))
  = [ (["R(tomorrow)"], false);
      (["R(tomorrow)"; "R(at 3)"], false);
      (["R(tomorrow)"; "R(at 3)"; "am"], false) ].
Proof.
  apply (proj2 (proj2 (@mismatch_and_None_do_not_raise datetime Q Artifact
                         String.eqb string str unit gen [entry] tt (Int Q 0)
                         0%Z (1 # 1) false))
           entry bad).
  reflexivity.
Defined.

(** C2 on a scenario: the second of three test cases has a sentence the
    generator does not answer; the run ends there with the ValueError. *)
Lemma run_stops_scenario :
  run gen ([case_3pm] ++ case_unknown :: [case_two_sentences])
  = ([WarnNeverProduced target "on the morrow at three"],
     inl (ValueError "max() arg is an empty sequence")).
Proof.
  apply (@run_corpus_stops_at_unanswered_sentence datetime strptime max_empty
           Q (1 # 1)
           float_gtb Artifact nb_str string str unit tt gen
           [case_3pm] [case_two_sentences] target "2023-01-01T00:00"
           "2023-01-01T00:00" ["tomorrow 15:00"] ["tomorrow at 3pm"]
           "on the morrow at three").
  - constructor; [exact case_3pm_runs_through | constructor].
  - reflexivity.
  - intros t [<-|[]]. apply gen_answers. right. reflexivity.
  - reflexivity.
Defined.

(** C3: the scenario of the specification, a sentence for which the
    generator yields no candidate at all.  The warning is logged; the run
    then ends with the ValueError of max() on an empty list, not with the
    coverage exception, and no summary is logged. *)
Theorem no_candidate_scenario_raises_ValueError :
  run silent [(target, "2023-01-01T00:00", ["tomorrow at 3pm"])]
  = ([WarnNeverProduced target "tomorrow at 3pm"],
     inl (ValueError "max() arg is an empty sequence")).
Proof. reflexivity. Qed.

(** C4: a test case with two sentences, both answered.  Two sentences are
    evaluated, and the run reports a total_tests of 4. *)
Theorem total_tests_counts_two_sentences_as_four :
  sentences [case_two_sentences] = 2
  /\ run gen [case_two_sentences]
     = ([ InfoRun 4 1 2 1 3;
          InfoShareCorrect (2 # 3);
          InfoShareFirst (2 # 3);
          InfoShareBest (1 # 4) ],
        inr ([ ["R(tomorrow)"];
               ["R(tomorrow)"; "R(at 3pm)"];
               ["R(tomorrow)"];
               ["R(tomorrow)"; "R(at 3)"];
               ["R(tomorrow)"; "R(at 3)"; "am"];
               ["R(tomorrow 15:00)"] ],
             [true; true; false; false; false; true])).
Proof. split; reflexivity. Qed.

(** C5 as stated fails on one sentence with a correct first candidate and
    a wrong second one: the ratio logged is 1/2, while the count of correct
    first-yielded candidates (1) over the count of positive candidates (1)
    is 1. *)
Lemma share_first_is_not_over_positive_parses :
  shares_first (fst (run gen [case_3pm])) = [1 # 2]
  /\ corpus_sum strptime (1 # 1) float_gtb nb_str str tt gen pos_first_parses_
       [case_3pm] = 1
  /\ corpus_sum strptime (1 # 1) float_gtb nb_str str tt gen pos_parses_
       [case_3pm] = 1
  /\ ~ (1 # 2 == ratio 1 1)%Q.
Proof.
  repeat split; try reflexivity. intros H. discriminate H.
Qed.

(** C5, amended, on the same run. *)
Lemma share_first_scenario :
  shares_first (fst (run gen [case_3pm])) = [ratio 1 (1 + 1)].
Proof.
  apply (@share_first_is_over_all_parses datetime strptime max_empty
           Q (1 # 1) float_gtb
           Artifact nb_str string str unit tt gen [case_3pm]).
  - constructor; [exact case_3pm_runs_through | constructor].
  - discriminate.
Defined.

(** C6 on a test case with two sentences. *)
Lemma validator_label_scenario :
  exists (log : list LogRecord) (r : OneTest),
    one_test gen target "2023-01-01T00:00" ["tomorrow at 3pm"; "tomorrow 15:00"]
    = (log, inr r)
    /\ ys_ r = [true; true; false; false; false; true]
    /\ pos_parses_ r = 2
    /\ neg_parses_ r = 1
    /\ pos_first_parses_ r = 2
    /\ at_least_one_failed_ r = false.
Proof.
  destruct (@validator_label_is_canonical_text datetime strptime max_empty
           Q (1 # 1)
              float_gtb Artifact nb_str string str unit tt gen
              target "2023-01-01T00:00" ["tomorrow at 3pm"; "tomorrow 15:00"]
              0%Z "2023-01-01T00:00")
    as (log & r & Hrun & _ & Hys & Hpos & Hneg & Hfirst & _ & Hfail & _).
  - reflexivity.
  - intros test [<-|[<-|[]]]; apply gen_answers; [left | right]; reflexivity.
  - exists log, r. repeat split; assumption.
Defined.

(** C7 on four strings. *)
Lemma parse_nb_string_scenario :
  parse_nb_string from_str from_str from_str "Time[]{2023-01-02T15:00:00}"
  = inr (NbTime string string "2023-01-02T15:00:00")
  /\ parse_nb_string from_str from_str from_str "Interval[]{X-X - X-X}"
     = inr (NbInterval string string "X-X - X-X")
  /\ parse_nb_string from_str from_str from_str "Duration[]{3 days}"
     = inr (NbDuration string string "3 days")
  /\ parse_nb_string from_str from_str from_str "time(2023)"
     = inl (ValueError "'time(2023)' has an invalid format").
Proof.
  split; [|split; [|split]].
  - apply (proj1 (@parse_nb_string_dispatch string string string
                    from_str from_str from_str "Time[]{2023-01-02T15:00:00}")).
    reflexivity.
  - apply (proj1 (proj2 (@parse_nb_string_dispatch string string string
                    from_str from_str from_str "Interval[]{X-X - X-X}"))).
    reflexivity.
  - apply (proj1 (proj2 (proj2 (@parse_nb_string_dispatch string string string
                    from_str from_str from_str "Duration[]{3 days}")))).
    reflexivity.
  - apply (proj2 (proj2 (proj2 (@parse_nb_string_dispatch string string string
                    from_str from_str from_str "time(2023)"))));
      reflexivity.
Defined.

(** C10 as stated fails on a run in which no candidate is produced because
    the generator does not answer a sentence: the error is the ValueError of
    max(), raised inside the test case, not a division by zero in the
    summary. *)
Lemma no_candidate_is_not_a_division_by_zero :
  flat_map
    (fun c : TestCase =>
       flat_map
         (fun test => silent test "2023-01-01T00:00" (1 # 1) (Int Q 0) 0%Z tt false)
         (snd c))
    [case_3pm] = []
  /\ snd (run silent [case_3pm])
     = inl (ValueError "max() arg is an empty sequence")
  /\ snd (run silent [case_3pm]) <> inl ZeroDivisionError.
Proof.
  repeat split. discriminate.
Qed.

(** C10, amended, on the empty corpus and on a test case without
    sentences. *)
Lemma empty_corpus_scenario :
  run gen [] = ([InfoRun 0 0 0 0 0], inl ZeroDivisionError)
  /\ run gen [(target, "2023-01-01T00:00", [])]
     = ([InfoRun 0 1 0 0 0], inl ZeroDivisionError).
Proof.
  split.
  - apply (@run_corpus_without_sentences_divides_by_zero datetime strptime max_empty
           Q (1 # 1) float_gtb Artifact nb_str string str unit tt gen []).
    constructor.
  - apply (@run_corpus_without_sentences_divides_by_zero datetime strptime max_empty
           Q (1 # 1) float_gtb Artifact nb_str string str unit tt gen
             [(target, "2023-01-01T00:00", [])]).
    constructor; [|constructor].
    split; [reflexivity|]. exists "2023-01-01T00:00". reflexivity.
Defined.

(** ** The further properties on the scenarios *)

Lemma gen_with_None_answers :
  answers (1 # 1) tt gen_with_None "2023-01-01T00:00" 0%Z "tomorrow 15:00".
Proof.
  split; [discriminate|]. simpl. intros [H|[]]. discriminate.
Qed.

Lemma case_15_runs_through :
  runs_through strptime (1 # 1) tt gen_with_None case_15.
Proof.
  exists "2023-01-01T00:00". split; [reflexivity|].
  intros test [<-|[]]. exact gen_with_None_answers.
Qed.

Lemma gen_flat_answers :
  answers (1 # 1) tt gen_flat "2023-01-01T00:00" 0%Z "tomorrow at 3pm".
Proof.
  split; [discriminate|]. simpl. intros [H|[H|[]]]; discriminate.
Qed.

(** X3 on the scenario: the first row of the entry. *)
Lemma dataset_rows_are_prefixes_scenario :
  In (["R(tomorrow)"], true) (yields (dataset gen [entry] false)).
Proof.
  apply (proj2 (proj1 (@dataset_rows_are_prefixes datetime Q Artifact
                         String.eqb string str unit gen [entry] tt (Int Q 0)
                         0%Z (1 # 1) false (["R(tomorrow)"], true)))).
  exists entry, good, 1.
  split; [left; reflexivity|].
  split; [left; reflexivity|].
  split; [simpl; lia | reflexivity].
Defined.

(** X5 on a scenario: the second sentence of the second test case gets a
    None candidate. *)
Lemma run_asserts_on_None_scenario :
  run gen_with_None ([case_15] ++ case_15_then_3pm :: [case_15])
  = ([], inl AssertionError).
Proof.
  apply (@run_corpus_asserts_on_None datetime strptime max_empty Q (1 # 1)
           float_gtb Artifact nb_str string str unit tt gen_with_None
           [case_15] [case_15] target "2023-01-01T00:00" "2023-01-01T00:00"
           ["tomorrow 15:00"] [] "tomorrow at 3pm" [good] [Some bad]).
  - constructor; [exact case_15_runs_through | constructor].
  - reflexivity.
  - intros s [<-|[]]. exact gen_with_None_answers.
  - reflexivity.
Defined.

(** X6 on a scenario: the second test case has a reference time that is
    not a timestamp. *)
Lemma run_bad_timestamp_scenario :
  run gen ([case_3pm] ++ case_bad_timestamp :: [case_3pm])
  = ([], inl (ValueError "time data does not match format")).
Proof.
  apply (@run_corpus_bad_timestamp datetime strptime max_empty Q (1 # 1)
           float_gtb Artifact nb_str string str unit tt gen
           [case_3pm] [case_3pm] target "yesterday" ["tomorrow at 3pm"]
           (ValueError "time data does not match format")).
  - constructor; [exact case_3pm_runs_through | constructor].
  - reflexivity.
Defined.

(** X8 on a scenario: one test case, covered. *)
Lemma run_verdict_scenario :
  fst (run gen [case_3pm])
  = [ InfoRun 1 1 1 1 2;
      InfoShareCorrect (1 # 2);
      InfoShareFirst (1 # 2);
      InfoShareBest (0 # 1) ].
Proof.
  apply (proj1 (@run_corpus_verdict datetime strptime max_empty Q (1 # 1)
                  float_gtb Artifact nb_str string str unit tt gen [case_3pm]
                  (Forall_cons _ case_3pm_runs_through (Forall_nil _))
                  (fun H : 1 = 0 => O_S 0 (eq_sym H)))).
Defined.

(** X9 on a test case with two sentences. *)
Lemma one_test_counters_scenario :
  exists (log : list LogRecord) (r : OneTest),
    one_test gen target "2023-01-01T00:00" ["tomorrow at 3pm"; "tomorrow 15:00"]
    = (log, inr r)
    /\ List.length (Xs_ r) = List.length (ys_ r)
    /\ pos_parses_ r + neg_parses_ r = 3
    /\ pos_first_parses_ r <= pos_parses_ r
    /\ pos_best_scored_ r <= pos_parses_ r
    /\ pos_first_parses_ r <= 2
    /\ pos_best_scored_ r <= 2.
Proof.
  apply (@one_test_counters_are_consistent datetime strptime max_empty Q
           (1 # 1) float_gtb Artifact nb_str string str unit tt gen
           target "2023-01-01T00:00" ["tomorrow at 3pm"; "tomorrow 15:00"]
           0%Z "2023-01-01T00:00").
  - reflexivity.
  - intros test [<-|[<-|[]]]; apply gen_answers; [left | right]; reflexivity.
Defined.

(** X10 on a scenario: the share of correct parses, 1/2. *)
Lemma logged_share_scenario : (0 <= 1 # 2 /\ 1 # 2 <= 1)%Q.
Proof.
  apply (@logged_shares_are_between_0_and_1 datetime strptime max_empty Q
           (1 # 1) float_gtb Artifact nb_str string str unit tt gen
           [case_3pm] (1 # 2)).
  - constructor; [exact case_3pm_runs_through | constructor].
  - discriminate.
  - left. vm_compute. right. left. reflexivity.
Defined.

(** X11 on a scenario: the validator's rows for a test case are the
    builder's rows for its sentences. *)
Lemma validator_rows_scenario :
  exists (log : list LogRecord) (r : OneTest),
    one_test gen target "2023-01-01T00:00" ["tomorrow at 3pm"; "tomorrow 15:00"]
    = (log, inr r)
    /\ combine (Xs_ r) (ys_ r)
       = yields
           (dataset gen
              (map (fun test => mkTimeParseEntry test "2023-01-01T00:00" target)
                 ["tomorrow at 3pm"; "tomorrow 15:00"])
              true).
Proof.
  apply (@validator_rows_are_builder_rows datetime strptime max_empty Q
           (1 # 1) float_gtb Artifact String.eqb nb_str string str unit tt gen
           target "2023-01-01T00:00" ["tomorrow at 3pm"; "tomorrow 15:00"]
           0%Z "2023-01-01T00:00" target true).
  - reflexivity.
  - intros test [<-|[<-|[]]]; apply gen_answers; [left | right]; reflexivity.
  - intros test p _ _. reflexivity.
Defined.

(** X12 on a scenario: one sentence, two candidates, the first of which has
    the target as its canonical text. *)
Lemma warnings_scenario :
  (forall t s,
     In (WarnNeverProduced t s)
        (fst (one_test gen_flat "Time(2023-01-02T03:00:00)" "2023-01-01T00:00"
                ["tomorrow at 3pm"]))
     <-> t = "Time(2023-01-02T03:00:00)"
         /\ In s ["tomorrow at 3pm"]
         /\ passes (1 # 1) nb_str tt gen_flat "Time(2023-01-02T03:00:00)"
              "2023-01-01T00:00" 0%Z s = false)
  /\ (forall t,
        In (WarnNotAlways t)
           (fst (one_test gen_flat "Time(2023-01-02T03:00:00)"
                   "2023-01-01T00:00" ["tomorrow at 3pm"]))
        <-> t = "Time(2023-01-02T03:00:00)"
            /\ exists s,
                 In s ["tomorrow at 3pm"]
                 /\ passes (1 # 1) nb_str tt gen_flat
                      "Time(2023-01-02T03:00:00)" "2023-01-01T00:00" 0%Z s
                    = false).
Proof.
  apply (@warnings_name_the_failing_sentences datetime strptime max_empty Q
           (1 # 1) float_gtb Artifact nb_str string str unit tt gen_flat
           "Time(2023-01-02T03:00:00)" "2023-01-01T00:00" ["tomorrow at 3pm"]
           0%Z "2023-01-01T00:00").
  - reflexivity.
  - intros test [<-|[]]. exact gen_flat_answers.
Defined.

(** X13 on a scenario: two candidates with the same score, the wrong one
    first. *)
Lemma equal_scores_scenario :
  exists (log : list LogRecord) (r : OneTest),
    one_test gen_flat target "2023-01-01T00:00" ["tomorrow at 3pm"]
    = (log, inr r)
    /\ pos_best_scored_ r = pos_first_parses_ r.
Proof.
  apply (@equal_scores_make_best_the_first datetime strptime max_empty Q
           (1 # 1) float_gtb Artifact nb_str string str unit tt gen_flat
           target "2023-01-01T00:00" ["tomorrow at 3pm"] 0%Z
           "2023-01-01T00:00").
  - reflexivity.
  - intros test [<-|[]]. exact gen_flat_answers.
  - intros test p q [<-|[]] Hp Hq. simpl in Hp, Hq.
    destruct Hp as [<-|[<-|[]]]; destruct Hq as [<-|[<-|[]]]; reflexivity.
Defined.

(** X15 on three short strings. *)
Lemma parse_nb_string_short_scenario :
  parse_nb_string from_str from_str from_str "Time" = inr (NbTime string string "")
  /\ parse_nb_string from_str from_str from_str "Interval[]{}"
     = inr (NbInterval string string "")
  /\ parse_nb_string from_str from_str from_str "Duration"
     = inr (NbDuration string string "").
Proof.
  split; [|split].
  - apply (proj1 (@parse_nb_string_short_input string string string
                    from_str from_str from_str "Time"));
      [reflexivity | simpl; lia].
  - apply (proj1 (proj2 (@parse_nb_string_short_input string string string
                           from_str from_str from_str "Interval[]{}")));
      [reflexivity | simpl; lia].
  - apply (proj2 (proj2 (@parse_nb_string_short_input string string string
                           from_str from_str from_str "Duration")));
      [reflexivity | simpl; lia].
Defined.

(** X16 on a Duration. *)
Lemma parse_nb_string_kind_scenario :
  String.prefix "Duration" "Duration[]{3 days}" = true.
Proof.
  apply (@parse_nb_string_kind string string string from_str from_str from_str
           "Duration[]{3 days}" (NbDuration string string "3 days")).
  reflexivity.
Defined.

Lemma object_3pm_loads :
  loads strptime_seconds from_str from_str from_str Artifact_of_Time
    Artifact_of_Interval Artifact_of_Duration object_3pm
    (mkTimeParseEntry "tomorrow at 3pm" "2023-01-01T00:00:00" target).
Proof.
  split; [reflexivity|]. split.
  - exists "2023-01-01T00:00:00". split; reflexivity.
  - exists "Time[]{2023-01-02T15:00:00}", (NbTime string string "2023-01-02T15:00:00").
    repeat split.
Qed.

Example load_scenario :
  load "corpus.json"
  = inr [ mkTimeParseEntry "tomorrow at 3pm" "2023-01-01T00:00:00" target;
          mkTimeParseEntry "for three days" "2023-01-01T00:00:00"
            "Duration(3 days)" ].
Proof. reflexivity. Qed.

(** X18 on a scenario: the second object of the file does not load. *)
Lemma load_first_error_scenario :
  load "old.json"
  = inl (Raised string
           (ValueError "'2023-01-02T15:00:00' has an invalid format")).
Proof.
  apply (@load_timeparse_corpus_first_error datetime strptime_seconds
           Artifact string string string from_str from_str from_str
           string json_load_file Artifact_of_Time Artifact_of_Interval
           Artifact_of_Duration "old.json" [object_3pm] object_old_format
           [object_3_days]
           [mkTimeParseEntry "tomorrow at 3pm" "2023-01-01T00:00:00" target]
           _).
  - reflexivity.
  - constructor; [exact object_3pm_loads | constructor].
  - reflexivity.
Defined.

(** X19 on the same file. *)
Lemma load_format_error_scenario :
  load "old.json"
  = inl (Raised string
           (ValueError
              ("'" ++ "2023-01-02T15:00:00" ++ "' has an invalid format"))).
Proof.
  apply (@load_timeparse_corpus_format_error datetime strptime_seconds
           Artifact string string string from_str from_str from_str
           string json_load_file Artifact_of_Time Artifact_of_Interval
           Artifact_of_Duration "old.json" [object_3pm] object_old_format
           [object_3_days]
           [mkTimeParseEntry "tomorrow at 3pm" "2023-01-01T00:00:00" target]
           "tomorrow at 3pm" "2023-01-01T00:00:00" "2023-01-02T15:00:00"
           "2023-01-01T00:00:00").
  - reflexivity.
  - constructor; [exact object_3pm_loads | constructor].
  - reflexivity.
  - reflexivity.
  - reflexivity.
  - reflexivity.
  - reflexivity.
  - reflexivity.
  - reflexivity.
Defined.
